(** * Quiz management backend: the quiz controller

    A shallow embedding of [src/controller/quizController.js] (with the Quiz
    schema of [src/models/quizSchema.js]) and the properties of its handlers:
    validation of quiz bodies, role-aware listing, grading of a submission,
    the leaderboard and the archive of completed quizzes.

    Conventions of the embedding.
    - Request bodies are JavaScript values ([jsval]) as produced by the JSON
      body parser; truthiness, property access and strict equality follow
      the language.
    - JavaScript numbers are IEEE doubles.  Finite doubles are idealised as
      exact rationals ([Fin]), with [NaN] and the two infinities kept apart,
      so statements on [percentage] are up to floating-point rounding.
    - A collection is the list of its documents in storage order.
    - A handler is a computation over the database that either returns a
      response or throws; what was written before a throw stays written. *)

From Stdlib Require Import QArith Qcanon Qround.
From stdpp Require Import base option list strings sorting numbers pretty.

Set Warnings "-register-all".
Open Scope string_scope.
Open Scope list_scope.
Open Scope nat_scope.

(** ** JavaScript values *)

Inductive jsnum : Type :=
  | Fin (q : Qc)
  | NaN
  | PInf
  | NInf.

Inductive jsval : Type :=
  | VUndef
  | VNull
  | VBool (b : bool)
  | VNum (n : jsnum)
  | VStr (s : string)
  | VArr (elems : list jsval)
  | VObj (props : list (string * jsval)).

Global Instance jsnum_eq_dec : EqDecision jsnum.
Proof. solve_decision. Defined.

Definition Qc_of_nat (n : nat) : Qc := Qc_of_Z (Z.of_nat n).

Definition num_of_nat (n : nat) : jsnum := Fin (Qc_of_nat n).

(** [a / b]: division by zero gives an infinity, [0 / 0] and [∞ / ∞] give
    [NaN] (the sign of a zero is not tracked; zero counts as positive). *)
Definition jsdiv (a b : jsnum) : jsnum :=
  match a, b with
  | NaN, _ | _, NaN => NaN
  | Fin x, Fin y =>
      if decide (y = 0%Qc) then
        if decide (x = 0%Qc) then NaN
        else if decide (0 < x)%Qc then PInf else NInf
      else Fin (x / y)
  | Fin _, (PInf | NInf) => Fin 0
  | (PInf | NInf), (PInf | NInf) => NaN
  | PInf, Fin y => if decide (0 ≤ y)%Qc then PInf else NInf
  | NInf, Fin y => if decide (0 ≤ y)%Qc then NInf else PInf
  end.

(** [a * b]: [0 * ∞] is [NaN]. *)
Definition jsmul (a b : jsnum) : jsnum :=
  match a, b with
  | NaN, _ | _, NaN => NaN
  | Fin x, Fin y => Fin (x * y)
  | Fin x, PInf | PInf, Fin x =>
      if decide (x = 0%Qc) then NaN
      else if decide (0 < x)%Qc then PInf else NInf
  | Fin x, NInf | NInf, Fin x =>
      if decide (x = 0%Qc) then NaN
      else if decide (0 < x)%Qc then NInf else PInf
  | PInf, PInf | NInf, NInf => PInf
  | PInf, NInf | NInf, PInf => NInf
  end.

(** [Boolean(v)], the test behind [!v], [||] and [filter(Boolean)]. *)
Definition truthy (v : jsval) : bool :=
  match v with
  | VUndef | VNull => false
  | VBool b => b
  | VNum (Fin q) => bool_decide (q ≠ 0%Qc)
  | VNum NaN => false
  | VNum _ => true
  | VStr s => bool_decide (s ≠ "")
  | VArr _ | VObj _ => true
  end.

(** [a || b] *)
Definition jsor (a b : jsval) : jsval := if truthy a then a else b.

(** [Array.isArray(v)] *)
Definition isArray (v : jsval) : bool :=
  match v with VArr _ => true | _ => false end.

(** What a handler can throw or hand to [next].

    Modelled from the spec: [ErrorHandler] of [middlewares/error.js], an
    error that carries a message and an HTTP status (400, 404 or 500 in
    this controller).  [TypeError] is the language's own; [ModelError]
    stands for whatever a model throws when it refuses a document. *)
Inductive Error : Type :=
  | ErrorHandler (message : string) (statusCode : nat)
  | TypeError
  | ModelError.

Fixpoint assoc (k : string) (props : list (string * jsval)) : jsval :=
  match props with
  | [] => VUndef
  | (k', v) :: rest => if decide (k = k') then v else assoc k rest
  end.

(** [v.k] for a key [k] that no built-in prototype defines (the handlers
    read only such keys): a [TypeError] on [undefined] and [null],
    [undefined] when the property is absent. *)
Definition getProp (v : jsval) (k : string) : Error + jsval :=
  match v with
  | VUndef | VNull => inl TypeError
  | VObj props => inr (assoc k props)
  | _ => inr VUndef
  end.

(** [v[i]] for an array index [i]. *)
Definition getIndex (v : jsval) (i : nat) : Error + jsval :=
  match v with
  | VUndef | VNull => inl TypeError
  | VArr elems => inr (default VUndef (elems !! i))
  | VStr s =>
      inr (match String.get i s with
           | Some c => VStr (String c EmptyString)
           | None => VUndef
           end)
  | VObj props => inr (assoc (pretty (N.of_nat i)) props)
  | _ => inr VUndef
  end.

(** [v.length] of an array (read only behind [Array.isArray(v)]). *)
Definition arrayLength (v : jsval) : nat :=
  match v with VArr elems => length elems | _ => 0 end.

Definition elements (v : jsval) : list jsval :=
  match v with VArr elems => elems | _ => [] end.

(** Sequencing of computations that may throw. *)
Definition bindE {A B} (r : Error + A) (k : A → Error + B) : Error + B :=
  match r with
  | inl e => inl e
  | inr a => k a
  end.

Global Instance Error_ret : MRet (sum Error) := @inr Error.
Global Instance Error_bind : MBind (sum Error) := λ A B k r, bindE r k.

(** [s === v] for a string [s]. *)
Definition strictEqStr (s : string) (v : jsval) : bool :=
  match v with
  | VStr s' => bool_decide (s = s')
  | _ => false
  end.

(** ** Documents and collections *)

Definition ObjectId := string.

(** An embedded question of [quizSchema]. *)
Record Question : Type := mkQuestion {
  q_id : ObjectId;
  q_question : string;
  q_options : list string;
  q_correctAnswer : string;
}.

(** A document of the Quiz model ([timestamps: true]; [updatedAt] is never
    read by the controller and is left out). *)
Record Quiz : Type := mkQuiz {
  quiz_id : ObjectId;
  title : string;
  description : string;
  questions : list Question;
  duration : jsnum;
  createdBy : ObjectId;
  createdAt : N;
}.

(** A question as snapshotted in a completed quiz. *)
Record AnsweredQuestion : Type := mkAnswered {
  aq_question : string;
  aq_options : list string;
  aq_correctAnswer : string;
  aq_selectedOption : jsval;
}.

(** Modelled from the spec: a document of the CompletedQuiz model of
    [models/completedQuizSchema.js] (the CompletedAttempt of the data
    model), with the fields the controller writes and reads; the identifier
    and [completedAt] are set when the document is created. *)
Record CompletedQuiz : Type := mkCompleted {
  cq_id : ObjectId;
  cq_student : ObjectId;
  cq_quiz : ObjectId;
  cq_score : nat;
  cq_totalQuestions : nat;
  cq_percentage : jsnum;
  cq_questions : list AnsweredQuestion;
  cq_completedAt : N;
}.

(** Modelled from the spec: a document of the Score model of
    [models/score.js] (the ScoreRecord of the data model), with the fields
    the controller writes. *)
Record Score : Type := mkScore {
  s_id : ObjectId;
  s_quizId : ObjectId;
  s_studentId : ObjectId;
  s_score : nat;
  s_totalQuestions : nat;
  s_percentage : jsnum;
}.

(** Modelled from the spec: a document of the User model of
    [models/userSchema.js]; the controller reads the identifier, the role
    and, for the leaderboard, [fullName] and [avatar]. *)
Record User : Type := mkUser {
  user_id : ObjectId;
  fullName : string;
  avatar : string;
  role : string;
}.

Record Db : Type := mkDb {
  quizzes : list Quiz;
  completedQuizzes : list CompletedQuiz;
  scores : list Score;
  users : list User;
}.

(** What the outside world gives a request: the clock and the identifiers
    the driver generates, [newId k] being the k-th of this request. *)
Record Env : Type := mkEnv {
  now : N;
  newId : nat → ObjectId;
}.

(** The fields of a quiz once cast to [quizSchema]. *)
Record QuestionFields : Type := mkQuestionFields {
  qf_question : string;
  qf_options : list string;
  qf_correctAnswer : string;
}.

Record QuizFields : Type := mkQuizFields {
  f_title : string;
  f_description : string;
  f_questions : list QuestionFields;
  f_duration : jsnum;
}.

(** The fields of an update once cast; a description of [None] leaves the
    stored one as it is. *)
Record QuizUpdate : Type := mkQuizUpdate {
  u_title : string;
  u_description : option string;
  u_questions : list QuestionFields;
  u_duration : jsnum;
}.

(** The object-document mapper.  Casting a request body to [quizSchema] and
    the validation done by the CompletedQuiz and Score models (their schemas
    are outside this module) are parameters of the development:
    [castQuiz title description questions duration] is [None] when the
    mapper rejects the fields of a new quiz, [castQuizUpdate] likewise for
    an update, [completedQuizValid] and [scoreValid] tell whether [create]
    stores the document or throws. *)
Record Odm : Type := mkOdm {
  castQuiz : jsval → jsval → jsval → jsval → option QuizFields;
  castQuizUpdate : jsval → jsval → jsval → jsval → option QuizUpdate;
  completedQuizValid : CompletedQuiz → bool;
  scoreValid : Score → bool;
}.

(** ** Responses *)

Record LeaderboardStudent : Type := mkLbStudent {
  ls_id : ObjectId;
  ls_fullName : string;
  ls_avatar : string;
}.

(** A score document with [studentId] populated ([None] is [null]). *)
Record LeaderboardEntry : Type := mkEntry {
  le_score : Score;
  le_student : option LeaderboardStudent;
}.

Record ScoreSummary : Type := mkSummary {
  ss_score : nat;
  ss_totalQuestions : nat;
  ss_completedAt : N;
}.

Record CompletedSummary : Type := mkCompletedSummary {
  cs_score : ScoreSummary;
  cs_quiz : option Quiz;
}.

Inductive Payload : Type :=
  | NoPayload
  | P_quiz (q : Quiz)
  | P_quizzes (l : list Quiz)
  | P_result (c : CompletedQuiz)
  | P_leaderboard (l : list LeaderboardEntry)
  | P_completedQuizzes (l : list CompletedSummary).

(** [res.status(s).json({success, message, ...})] or [next(err)]. *)
Inductive Outcome : Type :=
  | Respond (status : nat) (success : bool) (message : option string)
            (payload : Payload)
  | Next (e : Error).

(** ** Handlers as computations over the database *)

Definition M (A : Type) : Type := Db → Db * (Error + A).

Definition ret {A} (a : A) : M A := λ db, (db, inr a).

Definition throw {A} (e : Error) : M A := λ db, (db, inl e).

Definition bind {A B} (m : M A) (k : A → M B) : M B :=
  λ db, match m db with
        | (db', inl e) => (db', inl e)
        | (db', inr a) => k a db'
        end.

Definition liftE {A} (r : Error + A) : M A :=
  match r with
  | inl e => throw e
  | inr a => ret a
  end.

(** [try { m } catch (error) { ... }]: the error becomes a value. *)
Definition try {A} (m : M A) : M (Error + A) :=
  λ db, let '(db', r) := m db in (db', inr r).

Definition gets {A} (f : Db → A) : M A := λ db, (db, inr (f db)).

Definition modify (f : Db → Db) : M unit := λ db, (f db, inr tt).

Global Instance M_ret : MRet M := @ret.
Global Instance M_bind : MBind M := λ A B k m, bind m k.

(** Modelled from the spec: [catchAsyncErrors] of
    [middlewares/catchAsyncErrors.js], the uniform wrapper that forwards any
    error thrown by the handler to the centralized responder. *)
Definition catchAsyncErrors (h : M Outcome) (db : Db) : Outcome * Db :=
  match h db with
  | (db', inl e) => (Next e, db')
  | (db', inr out) => (out, db')
  end.

(** ** Queries *)

Definition withQuizzes (f : list Quiz → list Quiz) (db : Db) : Db :=
  mkDb (f (quizzes db)) (completedQuizzes db) (scores db) (users db).

Definition withCompleted (f : list CompletedQuiz → list CompletedQuiz)
    (db : Db) : Db :=
  mkDb (quizzes db) (f (completedQuizzes db)) (scores db) (users db).

Definition withScores (f : list Score → list Score) (db : Db) : Db :=
  mkDb (quizzes db) (completedQuizzes db) (f (scores db)) (users db).

(** [sort({createdAt: -1})], [sort({completedAt: -1})], [sort({score: -1})]. *)
Definition newestQuizFirst (a b : Quiz) : Prop := (createdAt b ≤ createdAt a)%N.

Definition highestScoreFirst (a b : Score) : Prop :=
  (s_score b ≤ s_score a)%nat.

Global Instance newestQuizFirst_dec : RelDecision newestQuizFirst.
Proof. intros a b. unfold newestQuizFirst. apply _. Defined.

Global Instance highestScoreFirst_dec : RelDecision highestScoreFirst.
Proof. intros a b. unfold highestScoreFirst. apply _. Defined.

(** [Quiz.findById(id)] on a list of documents. *)
Definition findQuiz (id : ObjectId) (l : list Quiz) : option Quiz :=
  List.find (λ q, bool_decide (quiz_id q = id)) l.

Definition Quiz_findById (id : ObjectId) : M (option Quiz) :=
  gets (λ db, findQuiz id (quizzes db)).

(** [Quiz.find()] *)
Definition Quiz_find : M (list Quiz) := gets quizzes.

(** [Quiz.findOne().sort({ createdAt: -1 })] *)
Definition Quiz_findLatest : M (option Quiz) :=
  gets (λ db, head (merge_sort newestQuizFirst (quizzes db))).

(** [Quiz.findByIdAndDelete(id)] and the write of [quiz.save()]: both act on
    the first document with the identifier. *)
Fixpoint deleteFirst (id : ObjectId) (l : list Quiz) : list Quiz :=
  match l with
  | [] => []
  | x :: rest =>
      if decide (quiz_id x = id) then rest else x :: deleteFirst id rest
  end.

Fixpoint replaceFirst (q : Quiz) (l : list Quiz) : list Quiz :=
  match l with
  | [] => []
  | x :: rest =>
      if decide (quiz_id x = quiz_id q) then q :: rest
      else x :: replaceFirst q rest
  end.

Definition Quiz_findByIdAndDelete (id : ObjectId) : M unit :=
  modify (withQuizzes (deleteFirst id)).

Definition Quiz_save (q : Quiz) : M unit :=
  modify (withQuizzes (replaceFirst q)).

(** A completed quiz with its [quiz] path populated ([None] is [null]). *)
Record PopulatedCompleted : Type := mkPopulated {
  pc_doc : CompletedQuiz;
  pc_quiz : option Quiz;
}.

Definition newestCompletedFirst (a b : CompletedQuiz) : Prop :=
  (cq_completedAt b ≤ cq_completedAt a)%N.

Global Instance newestCompletedFirst_dec : RelDecision newestCompletedFirst.
Proof. intros a b. unfold newestCompletedFirst. apply _. Defined.

Definition populateQuiz (db : Db) (c : CompletedQuiz) : PopulatedCompleted :=
  mkPopulated c (findQuiz (cq_quiz c) (quizzes db)).

(** [CompletedQuiz.findOne({ quiz, student })] *)
Definition CompletedQuiz_findOne (quiz student : ObjectId)
    : M (option CompletedQuiz) :=
  gets (λ db,
    List.find (λ c, bool_decide (cq_quiz c = quiz) &&
                    bool_decide (cq_student c = student))
              (completedQuizzes db)).

Definition attemptsOf (student : ObjectId) (db : Db) : list CompletedQuiz :=
  filter (λ c, cq_student c = student) (completedQuizzes db).

(** [CompletedQuiz.find({ student }).populate("quiz")] *)
Definition CompletedQuiz_findPopulated (student : ObjectId)
    : M (list PopulatedCompleted) :=
  gets (λ db, map (populateQuiz db) (attemptsOf student db)).

(** [CompletedQuiz.find({ student }).populate(...).sort({ completedAt: -1 })] *)
Definition CompletedQuiz_findPopulatedSorted (student : ObjectId)
    : M (list PopulatedCompleted) :=
  gets (λ db,
    map (populateQuiz db)
        (merge_sort newestCompletedFirst (attemptsOf student db))).

Definition populateStudent (db : Db) (s : Score) : LeaderboardEntry :=
  mkEntry s
    (match List.find (λ u, bool_decide (user_id u = s_studentId s)) (users db)
     with
     | Some u => Some (mkLbStudent (user_id u) (fullName u) (avatar u))
     | None => None
     end).

(** [Score.find({ quizId }).sort({ score: -1 }).populate("studentId")] *)
Definition Score_findSortedPopulated (quizId : ObjectId)
    : M (list LeaderboardEntry) :=
  gets (λ db,
    map (populateStudent db)
        (merge_sort highestScoreFirst
           (filter (λ s, s_quizId s = quizId) (scores db)))).

(** ** The controller *)

Section Controller.

Variable odm : Odm.

Definition numberQuestions (env : Env) (l : list QuestionFields)
    : list Question :=
  imap (λ i f, mkQuestion (newId env (S i)) (qf_question f) (qf_options f)
                 (qf_correctAnswer f)) l.

(** [Quiz.create({ title, description, questions, duration, createdBy })] *)
Definition Quiz_create (env : Env) (title description questions duration : jsval)
    (createdBy : ObjectId) : M Quiz :=
  match castQuiz odm title description questions duration with
  | None => throw ModelError
  | Some f =>
      let newQuiz :=
        mkQuiz (newId env 0) (f_title f) (f_description f)
          (numberQuestions env (f_questions f)) (f_duration f) createdBy
          (now env) in
      modify (withQuizzes (λ l, l ++ [newQuiz]));;
      ret newQuiz
  end.

(** [Quiz.findByIdAndUpdate(id, { title, description, questions, duration },
    { new: true, runValidators: true })] *)
Definition Quiz_findByIdAndUpdate (env : Env) (id : ObjectId)
    (vtitle vdescription vquestions vduration : jsval) : M (option Quiz) :=
  match castQuizUpdate odm vtitle vdescription vquestions vduration with
  | None => throw ModelError
  | Some u =>
      found ← Quiz_findById id;
      match found with
      | None => ret None
      | Some old =>
          let updatedQuiz :=
            mkQuiz (quiz_id old) (u_title u)
              (default (description old) (u_description u))
              (numberQuestions env (u_questions u)) (u_duration u)
              (createdBy old) (createdAt old) in
          Quiz_save updatedQuiz;;
          ret (Some updatedQuiz)
      end
  end.

(** [CompletedQuiz.create({...})] *)
Definition CompletedQuiz_create (c : CompletedQuiz) : M CompletedQuiz :=
  if completedQuizValid odm c then
    modify (withCompleted (λ l, l ++ [c]));;
    ret c
  else throw ModelError.

(** [Score.create({...})] *)
Definition Score_create (s : Score) : M Score :=
  if scoreValid odm s then
    modify (withScores (λ l, l ++ [s]));;
    ret s
  else throw ModelError.

(** *** addQuiz and updateQuiz *)

Definition requiredFields : Error :=
  ErrorHandler "Title, questions, and duration are required!" 400.
Definition questionsNotArray : Error :=
  ErrorHandler "Questions must be a non-empty array!" 400.
Definition questionIncomplete : Error :=
  ErrorHandler
    "Each question must have a question, options, and correctAnswer!" 400.
Definition optionsNotArray : Error :=
  ErrorHandler "Options must be a non-empty array!" 400.

(** The body of the [for (const question of questions)] loop: [Some e] when
    it returns [next(e)], [None] when it falls through. *)
Definition checkQuestion (question : jsval) : Error + option Error :=
  text ← getProp question "question";
  if negb (truthy text) then inr (Some questionIncomplete) else
  opts ← getProp question "options";
  if negb (truthy opts) then inr (Some questionIncomplete) else
  answer ← getProp question "correctAnswer";
  if negb (truthy answer) then inr (Some questionIncomplete) else
  if negb (isArray opts) || bool_decide (arrayLength opts = 0)
  then inr (Some optionsNotArray)
  else inr None.

Fixpoint checkQuestions (qs : list jsval) : Error + option Error :=
  match qs with
  | [] => inr None
  | question :: rest =>
      r ← checkQuestion question;
      match r with
      | Some e => inr (Some e)
      | None => checkQuestions rest
      end
  end.

(** The validation that opens [addQuiz] and [updateQuiz]. *)
Definition validateQuiz (title questions duration : jsval)
    : Error + option Error :=
  if negb (truthy title) || negb (truthy questions) || negb (truthy duration)
  then inr (Some requiredFields)
  else if negb (isArray questions) || bool_decide (arrayLength questions = 0)
  then inr (Some questionsNotArray)
  else checkQuestions (elements questions).

Definition addQuiz_handler (env : Env) (user : User) (body : jsval)
    : M Outcome :=
  title ← liftE (getProp body "title");
  description ← liftE (getProp body "description");
  questions ← liftE (getProp body "questions");
  duration ← liftE (getProp body "duration");
  invalid ← liftE (validateQuiz title questions duration);
  match invalid with
  | Some e => ret (Next e)
  | None =>
      newQuiz ← Quiz_create env title (jsor description (VStr ""))
                      questions duration (user_id user);
      ret (Respond 201 true (Some "Quiz added successfully!") (P_quiz newQuiz))
  end.

Definition addQuiz (env : Env) (user : User) (body : jsval)
    : Db → Outcome * Db :=
  catchAsyncErrors (addQuiz_handler env user body).

Definition updateQuiz_handler (env : Env) (id : ObjectId) (body : jsval)
    : M Outcome :=
  title ← liftE (getProp body "title");
  description ← liftE (getProp body "description");
  questions ← liftE (getProp body "questions");
  duration ← liftE (getProp body "duration");
  invalid ← liftE (validateQuiz title questions duration);
  match invalid with
  | Some e => ret (Next e)
  | None =>
      updatedQuiz ← Quiz_findByIdAndUpdate env id title description
                          questions duration;
      match updatedQuiz with
      | None => ret (Next (ErrorHandler "Quiz not found!" 404))
      | Some q =>
          ret (Respond 200 true (Some "Quiz updated successfully!") (P_quiz q))
      end
  end.

Definition updateQuiz (env : Env) (id : ObjectId) (body : jsval)
    : Db → Outcome * Db :=
  catchAsyncErrors (updateQuiz_handler env id body).

(** *** deleteQuiz and deleteQuestion *)

Definition deleteQuiz_handler (id : ObjectId) : M Outcome :=
  quiz ← Quiz_findById id;
  match quiz with
  | None => ret (Next (ErrorHandler "Quiz not found!" 404))
  | Some _ =>
      Quiz_findByIdAndDelete id;;
      ret (Respond 200 true (Some "Quiz deleted successfully!") NoPayload)
  end.

Definition deleteQuiz (id : ObjectId) : Db → Outcome * Db :=
  catchAsyncErrors (deleteQuiz_handler id).

Definition setQuestions (quiz : Quiz) (qs : list Question) : Quiz :=
  mkQuiz (quiz_id quiz) (title quiz) (description quiz) qs (duration quiz)
    (createdBy quiz) (createdAt quiz).

Definition deleteQuestion_handler (quizId questionId : string) : M Outcome :=
  quiz ← Quiz_findById quizId;
  match quiz with
  | None => ret (Next (ErrorHandler "Quiz not found!" 404))
  | Some quiz =>
      let quiz := setQuestions quiz
                    (filter (λ q, q_id q ≠ questionId) (questions quiz)) in
      Quiz_save quiz;;
      ret (Respond 200 true (Some "Question deleted successfully!") NoPayload)
  end.

Definition deleteQuestion (quizId questionId : string) : Db → Outcome * Db :=
  catchAsyncErrors (deleteQuestion_handler quizId questionId).

(** *** getAllQuizzes *)

(** [l.filter(Boolean)] on documents and [null]s. *)
Definition filterBoolean {A} (l : list (option A)) : list A := omap id l.

Definition getAllQuizzes_handler (user : User) : M Outcome :=
  quizzes ←
    (if decide (role user = "admin") then Quiz_find
     else
       latestQuiz ← Quiz_findLatest;
       completedQuizzes ← CompletedQuiz_findPopulated (user_id user);
       let completedQuizIds := map pc_quiz completedQuizzes in
       mret (filterBoolean (latestQuiz :: completedQuizIds)));
  mret (Respond 200 true None (P_quizzes quizzes)).

Definition getAllQuizzes (user : User) : Db → Outcome * Db :=
  catchAsyncErrors (getAllQuizzes_handler user).

(** *** submitQuiz *)

(** [quiz.questions.forEach((q, index) => { if (q.correctAnswer ===
    answers[index].selectedOption) score++; })], from [index] and [score]. *)
Fixpoint scoreLoop (qs : list Question) (answers : jsval) (index score : nat)
    : Error + nat :=
  match qs with
  | [] => inr score
  | q :: rest =>
      answer ← getIndex answers index;
      selectedOption ← getProp answer "selectedOption";
      scoreLoop rest answers (S index)
        (if strictEqStr (q_correctAnswer q) selectedOption
         then S score else score)
  end.

(** [quiz.questions.map((q, index) => ({ question, options, correctAnswer,
    selectedOption: answers[index].selectedOption }))], from [index]. *)
Fixpoint snapshotLoop (qs : list Question) (answers : jsval) (index : nat)
    : Error + list AnsweredQuestion :=
  match qs with
  | [] => inr []
  | q :: rest =>
      answer ← getIndex answers index;
      selectedOption ← getProp answer "selectedOption";
      snapshot ← snapshotLoop rest answers (S index);
      mret (mkAnswered (q_question q) (q_options q) (q_correctAnswer q)
              selectedOption :: snapshot)
  end.

Definition submitQuiz_handler (env : Env) (user : User) (quizId : string)
    (body : jsval) : M Outcome :=
  answers ← liftE (getProp body "answers");
  let userId := user_id user in
  previousAttempt ← CompletedQuiz_findOne quizId userId;
  match previousAttempt with
  | Some previousAttempt =>
      mret (Respond 400 false (Some "You have already taken this quiz.")
              (P_result previousAttempt))
  | None =>
      quiz ← Quiz_findById quizId;
      match quiz with
      | None => mret (Next (ErrorHandler "Quiz not found" 404))
      | Some quiz =>
          score ← liftE (scoreLoop (questions quiz) answers 0 0);
          let total := length (questions quiz) in
          let percentage :=
            jsmul (jsdiv (num_of_nat score) (num_of_nat total))
                  (num_of_nat 100) in
          snapshot ← liftE (snapshotLoop (questions quiz) answers 0);
          completedQuiz ←
            CompletedQuiz_create
              (mkCompleted (newId env 0) userId quizId score total percentage
                 snapshot (now env));
          saved ← try (Score_create
                         (mkScore (newId env 1) quizId userId score total
                            percentage));
          match saved with
          | inl _ => mret (Next (ErrorHandler "Failed to save score" 500))
          | inr _ =>
              mret (Respond 200 true (Some "Quiz submitted")
                      (P_result completedQuiz))
          end
      end
  end.

Definition submitQuiz (env : Env) (user : User) (quizId : string)
    (body : jsval) : Db → Outcome * Db :=
  catchAsyncErrors (submitQuiz_handler env user quizId body).

(** *** getQuizLeaderboard *)

Definition getQuizLeaderboard_handler (quizId : string) : M Outcome :=
  if decide (quizId = "") then
    mret (Respond 400 false (Some "Quiz ID is required") NoPayload)
  else
    leaderboard ← Score_findSortedPopulated quizId;
    mret (Respond 200 true None (P_leaderboard leaderboard)).

Definition getQuizLeaderboard (quizId : string) : Db → Outcome * Db :=
  catchAsyncErrors (getQuizLeaderboard_handler quizId).

(** *** getCompletedQuizzes *)

Definition formatCompleted (quiz : PopulatedCompleted) : CompletedSummary :=
  mkCompletedSummary
    (mkSummary (cq_score (pc_doc quiz)) (cq_totalQuestions (pc_doc quiz))
       (cq_completedAt (pc_doc quiz)))
    (pc_quiz quiz).

Definition getCompletedQuizzes_handler (studentId : string) : M Outcome :=
  completedQuizzes ← CompletedQuiz_findPopulatedSorted studentId;
  if decide (length completedQuizzes = 0) then
    mret (Next (ErrorHandler "No completed quizzes found" 404))
  else
    let formattedQuizzes :=
      map formatCompleted
        (filter (λ quiz, pc_quiz quiz ≠ None) completedQuizzes) in
    mret (Respond 200 true None (P_completedQuizzes formattedQuizzes)).

Definition getCompletedQuizzes (studentId : string) : Db → Outcome * Db :=
  catchAsyncErrors (getCompletedQuizzes_handler studentId).

End Controller.

(** ** Notions used to state the properties *)

(** A response that reports success: a 2xx status with [success: true]. *)
Definition isSuccess (out : Outcome) : bool :=
  match out with
  | Respond status success _ _ =>
      success && bool_decide (200 ≤ status < 300)
  | Next _ => false
  end.

(** A validation error: an [ErrorHandler] of status 400 handed to [next]. *)
Definition isValidationError (out : Outcome) : Prop :=
  ∃ message, out = Next (ErrorHandler message 400).

Definition nullish (v : jsval) : Prop := v = VUndef ∨ v = VNull.

Global Instance nullish_dec v : Decision (nullish v).
Proof. unfold nullish. destruct v; (by left; auto) || (right; intros [|]; done). Defined.

(** The score in the words of the specification: the number of indices [i]
    at which [question[i].correctAnswer] equals [answers[i].selectedOption]. *)
Definition selectedOptionAt (answers : list jsval) (i : nat) : jsval :=
  match answers !! i with
  | Some (VObj props) => assoc "selectedOption" props
  | _ => VUndef
  end.

Definition correctAt (qs : list Question) (answers : list jsval) (i : nat)
    : Prop :=
  ∃ q, qs !! i = Some q ∧
       selectedOptionAt answers i = VStr (q_correctAnswer q).

Global Instance correctAt_dec qs answers i : Decision (correctAt qs answers i).
Proof.
  unfold correctAt. destruct (qs !! i) as [q|].
  - destruct (selectedOptionAt answers i) as [| | | |s| |];
      try (right; intros (? & [= <-] & [=]); done).
    destruct (decide (s = q_correctAnswer q)) as [->|Hne].
    + left. eauto.
    + right. intros (? & [= <-] & [=]). done.
  - right. intros (? & [=] & _).
Defined.



(** [100 × score / totalQuestions] *)
Definition percentageOf (score total : nat) : jsnum :=
  jsdiv (jsmul (num_of_nat 100) (num_of_nat score)) (num_of_nat total).


(** The value a body holds under a key ([undefined] when it holds none). *)
Definition field (body : jsval) (k : string) : jsval :=
  match getProp body k with
  | inr v => v
  | inl _ => VUndef
  end.

(** A question entry that the loop of [addQuiz] rejects: its text, options
    or correctAnswer is missing or falsy, or its options are not a non-empty
    array. *)
Definition questionRejected (question : jsval) : Prop :=
  (∃ props, question = VObj props ∧
     (truthy (assoc "question" props) = false
      ∨ truthy (assoc "options" props) = false
      ∨ truthy (assoc "correctAnswer" props) = false
      ∨ isArray (assoc "options" props) = false
      ∨ arrayLength (assoc "options" props) = 0))
  ∨ (¬ nullish question ∧ ∀ props, question ≠ VObj props).


(** The student already has a completed attempt of the quiz. *)
Definition hasAttempt (student quizId : ObjectId) (db : Db) : Prop :=
  ∃ c, c ∈ completedQuizzes db ∧ cq_student c = student ∧ cq_quiz c = quizId.

Global Instance hasAttempt_dec student quizId db :
  Decision (hasAttempt student quizId db).
Proof.
  refine (cast_if (decide (Exists (λ c, cq_student c = student
                                        ∧ cq_quiz c = quizId)
                             (completedQuizzes db))));
    unfold hasAttempt; rewrite Exists_exists in *; naive_solver.
Defined.

(** The attempt and the score record that [submitQuiz] builds from a grade. *)
Definition attemptOf (env : Env) (user : User) (quizId : string)
    (score total : nat) (snapshot : list AnsweredQuestion) : CompletedQuiz :=
  mkCompleted (newId env 0) (user_id user) quizId score total
    (jsmul (jsdiv (num_of_nat score) (num_of_nat total)) (num_of_nat 100))
    snapshot (now env).

Definition scoreRecordOf (env : Env) (c : CompletedQuiz) : Score :=
  mkScore (newId env 1) (cq_quiz c) (cq_student c) (cq_score c)
    (cq_totalQuestions c) (cq_percentage c).

(** The order of a history, newest first. *)
Definition newestSummaryFirst (a b : CompletedSummary) : Prop :=
  (ss_completedAt (cs_score b) ≤ ss_completedAt (cs_score a))%N.

(** The entry of a history for an attempt whose quiz still exists. *)
Definition resolvedSummary (db : Db) (c : CompletedQuiz)
    : option CompletedSummary :=
  match findQuiz (cq_quiz c) (quizzes db) with
  | Some q =>
      Some (mkCompletedSummary
              (mkSummary (cq_score c) (cq_totalQuestions c) (cq_completedAt c))
              (Some q))
  | None => None
  end.

(** ** Sample data *)

Module Sample.

(** A mapper that accepts well-typed fields only: strings on String paths,
    a finite number for [duration], an array of objects for [questions]. *)
Definition castString (v : jsval) : option string :=
  match v with VStr s => Some s | _ => None end.

Definition castStrings (v : jsval) : option (list string) :=
  match v with VArr l => mapM castString l | _ => None end.

Definition castQuestion (v : jsval) : option QuestionFields :=
  match v with
  | VObj props =>
      text ← castString (assoc "question" props);
      opts ← castStrings (assoc "options" props);
      answer ← castString (assoc "correctAnswer" props);
      Some (mkQuestionFields text opts answer)
  | _ => None
  end.

Definition castQuestions (v : jsval) : option (list QuestionFields) :=
  match v with VArr l => mapM castQuestion l | _ => None end.

Definition castNumber (v : jsval) : option jsnum :=
  match v with VNum (Fin q) => Some (Fin q) | _ => None end.

Definition castFields (vtitle vdescription vquestions vduration : jsval)
    : option QuizFields :=
  t ← castString vtitle;
  d ← castString vdescription;
  qs ← castQuestions vquestions;
  n ← castNumber vduration;
  Some (mkQuizFields t d qs n).

Definition castUpdate (vtitle vdescription vquestions vduration : jsval)
    : option QuizUpdate :=
  t ← castString vtitle;
  d ← match vdescription with
      | VUndef => Some None
      | VStr s => Some (Some s)
      | _ => None
      end;
  qs ← castQuestions vquestions;
  n ← castNumber vduration;
  Some (mkQuizUpdate t d qs n).

(** Every attempt and score is stored. *)
Definition odm : Odm := mkOdm castFields castUpdate (λ _, true) (λ _, true).

(** The Score collection refuses every document. *)
Definition odmScoreDown : Odm :=
  mkOdm castFields castUpdate (λ _, true) (λ _, false).

(** The CompletedQuiz model refuses a percentage of [NaN]. *)
Definition odmNoNaN : Odm :=
  mkOdm castFields castUpdate
    (λ c, bool_decide (cq_percentage c ≠ NaN)) (λ _, true).

Definition envAt (t : N) (prefix : string) : Env :=
  mkEnv t (λ k, prefix +:+ pretty (N.of_nat k)).

Definition alice : User := mkUser "alice" "Alice" "alice.png" "student".
Definition bob : User := mkUser "bob" "Bob" "bob.png" "student".
Definition root : User := mkUser "root" "Root" "root.png" "admin".

Definition quizOld : Quiz :=
  mkQuiz "quiz0" "Warm-up" ""
    [mkQuestion "q0" "Ready?" ["yes"; "no"] "yes"]
    (num_of_nat 5) "root" 1%N.

Definition quizABC : Quiz :=
  mkQuiz "quiz1" "Letters" "three questions"
    [mkQuestion "q1" "First?" ["A"; "B"] "A";
     mkQuestion "q2" "Second?" ["A"; "B"] "B";
     mkQuestion "q3" "Third?" ["C"; "D"] "C"]
    (num_of_nat 10) "root" 5%N.

Definition db0 : Db := mkDb [quizOld; quizABC] [] [] [alice; bob; root].

Definition selected (s : string) : jsval := VObj [("selectedOption", VStr s)].

Definition answersABX : list jsval := [selected "A"; selected "B"; selected "X"].

Definition bodyABX : jsval := VObj [("answers", VArr answersABX)].

Definition bodyYes : jsval := VObj [("answers", VArr [selected "yes"])].

(** Alice has submitted [quizABC]. *)
Definition db1 : Db :=
  snd (submitQuiz odm (envAt 100 "a") alice "quiz1" bodyABX db0).

(** ... and then the warm-up. *)
Definition db2 : Db :=
  snd (submitQuiz odm (envAt 200 "b") alice "quiz0" bodyYes db1).

(** ... and then the warm-up was deleted. *)
Definition db3 : Db := snd (deleteQuiz "quiz0" db2).

Definition bodyABC : jsval :=
  VObj [("answers", VArr [selected "A"; selected "B"; selected "C"])].

(** ... and Bob has submitted [quizABC], all correct. *)
Definition dbBoard : Db :=
  snd (submitQuiz odm (envAt 150 "c") bob "quiz1" bodyABC db2).

(** Bob has submitted the warm-up only, and the warm-up was then deleted. *)
Definition dbGone : Db :=
  snd (deleteQuiz "quiz0"
         (snd (submitQuiz odm (envAt 120 "b") bob "quiz0" bodyYes db0))).

(** The warm-up once its only question was deleted. *)
Definition dbEmptied : Db := snd (deleteQuestion "quiz0" "q0" db0).

Definition emptyAttempt : CompletedQuiz :=
  mkCompleted "a0" "alice" "quiz0" 0 0 NaN [] 100%N.

Definition question (text : string) (opts : list string) (answer : string)
    : jsval :=
  VObj [("question", VStr text); ("options", VArr (map VStr opts));
        ("correctAnswer", VStr answer)].

Definition quizBody (vquestions vduration : jsval) : jsval :=
  VObj [("title", VStr "Numbers"); ("questions", vquestions);
        ("duration", vduration)].

End Sample.

(** ** The other handlers of the controller *)

(** The responses whose JSON shape [Outcome] does not cover:
    [{ success, latestQuiz }] of [getLatestQuiz] and
    [{ message, completedQuiz }] of [saveCompletedQuiz], which has no
    [success] flag. *)
Inductive Reply : Type :=
  | ReplyLatest (status : nat) (success : bool) (latestQuiz : Quiz)
  | ReplySaved (status : nat) (message : string) (completedQuiz : CompletedQuiz)
  | ReplyNext (e : Error).

(** Modelled from the spec: [catchAsyncErrors] again, for a handler that
    answers with a [Reply]. *)
Definition catchAsyncErrorsReply (h : M Reply) (db : Db) : Reply * Db :=
  match h db with
  | (db', inl e) => (ReplyNext e, db')
  | (db', inr out) => (out, db')
  end.

Definition getSingleQuiz_handler (id : string) : M Outcome :=
  quiz ← Quiz_findById id;
  match quiz with
  | None => mret (Next (ErrorHandler "Quiz not found!" 404))
  | Some quiz => mret (Respond 200 true None (P_quiz quiz))
  end.

Definition getSingleQuiz (id : string) : Db → Outcome * Db :=
  catchAsyncErrors (getSingleQuiz_handler id).

Definition getLatestQuiz_handler : M Reply :=
  latestQuiz ← Quiz_findLatest;
  match latestQuiz with
  | None => mret (ReplyNext (ErrorHandler "No quizzes found!" 404))
  | Some latestQuiz => mret (ReplyLatest 200 true latestQuiz)
  end.

Definition getLatestQuiz : Db → Reply * Db :=
  catchAsyncErrorsReply getLatestQuiz_handler.

(** The fields of a completed quiz once the model has cast them. *)
Record CompletedFields : Type := mkCompletedFields {
  cf_student : ObjectId;
  cf_quiz : ObjectId;
  cf_score : nat;
  cf_totalQuestions : nat;
  cf_percentage : jsnum;
  cf_questions : list AnsweredQuestion;
}.

(** [new CompletedQuiz({ student, quiz, score, totalQuestions, percentage,
    questions })]: the cast of the six values of the body is a parameter,
    as [castQuiz] is; values that a [CompletedQuiz] document cannot hold are
    among those it refuses. *)
Definition CompletedCast : Type :=
  jsval → jsval → jsval → jsval → jsval → jsval → option CompletedFields.

Definition saveCompletedQuiz_handler (cast : CompletedCast) (odm : Odm)
    (env : Env) (body : jsval) : M Reply :=
  student ← liftE (getProp body "student");
  quiz ← liftE (getProp body "quiz");
  score ← liftE (getProp body "score");
  totalQuestions ← liftE (getProp body "totalQuestions");
  percentage ← liftE (getProp body "percentage");
  questions ← liftE (getProp body "questions");
  match cast student quiz score totalQuestions percentage questions with
  | None => throw ModelError
  | Some f =>
      completedQuiz ←
        CompletedQuiz_create odm
          (mkCompleted (newId env 0) (cf_student f) (cf_quiz f) (cf_score f)
             (cf_totalQuestions f) (cf_percentage f) (cf_questions f)
             (now env));
      mret (ReplySaved 201 "Quiz completed successfully" completedQuiz)
  end.

Definition saveCompletedQuiz (cast : CompletedCast) (odm : Odm) (env : Env)
    (body : jsval) : Db → Reply * Db :=
  catchAsyncErrorsReply (saveCompletedQuiz_handler cast odm env body).

(** ** The router *)

Inductive Method : Type := GET | POST | PUT | DELETE.

Global Instance Method_eq_dec : EqDecision Method.
Proof. solve_decision. Defined.

(** A segment of a route path: a literal or a [:name] parameter. *)
Inductive Segment : Type :=
  | Lit (s : string)
  | Param (name : string).

Inductive Handler : Type :=
  | H_addQuiz | H_updateQuiz | H_deleteQuiz | H_deleteQuestion
  | H_getLatestQuiz | H_getAllQuizzes | H_getSingleQuiz | H_submitQuiz
  | H_getQuizLeaderboard | H_saveCompletedQuiz | H_getCompletedQuizzes.

Global Instance Handler_eq_dec : EqDecision Handler.
Proof. solve_decision. Defined.

(** [router.METHOD(path, [isAuthenticated,] handler)] *)
Record Route : Type := mkRoute {
  r_method : Method;
  r_path : list Segment;
  r_isAuthenticated : bool;
  r_handler : Handler;
}.

(** The routes of [router/quizRoutes.js], in the order they are declared. *)
Definition quizRoutes : list Route :=
  [ mkRoute POST [Lit "add"] true H_addQuiz;
    mkRoute PUT [Lit "update"; Param "id"] true H_updateQuiz;
    mkRoute DELETE [Lit "delete"; Param "id"] true H_deleteQuiz;
    mkRoute DELETE [Lit "delete"; Param "quizId"; Lit "question";
                    Param "questionId"] true H_deleteQuestion;
    mkRoute GET [Lit "latest"] false H_getLatestQuiz;
    mkRoute GET [Lit "getall"] true H_getAllQuizzes;
    mkRoute GET [Param "id"] false H_getSingleQuiz;
    mkRoute POST [Lit "submit"; Param "quizId"] true H_submitQuiz;
    mkRoute GET [Lit "leaderboard"; Param "quizId"] true H_getQuizLeaderboard;
    mkRoute POST [Lit "completed-quizzes"] false H_saveCompletedQuiz;
    mkRoute GET [Lit "completed-quizzes"; Param "studentId"] false
      H_getCompletedQuizzes ].

(** Paths are matched as the framework does by default: literals without
    regard to the case of ASCII letters, a parameter against any non-empty
    segment.  A request path is the list of its segments as they are in the
    URL (what the framework later decodes in a parameter is not modelled). *)
Definition lowerAscii (c : Ascii.ascii) : Ascii.ascii :=
  let n := Ascii.nat_of_ascii c in
  if (65 <=? n) && (n <=? 90) then Ascii.ascii_of_nat (n + 32) else c.

Fixpoint lowerString (s : string) : string :=
  match s with
  | EmptyString => EmptyString
  | String c rest => String (lowerAscii c) (lowerString rest)
  end.

Fixpoint matchPath (pattern : list Segment) (path : list string)
    : option (list (string * string)) :=
  match pattern, path with
  | [], [] => Some []
  | Lit s :: pattern', seg :: path' =>
      if decide (lowerString seg = lowerString s) then matchPath pattern' path'
      else None
  | Param name :: pattern', seg :: path' =>
      if decide (seg = "") then None
      else
        match matchPath pattern' path' with
        | Some params => Some ((name, seg) :: params)
        | None => None
        end
  | _, _ => None
  end.

(** The first declared route that matches, with the parameters it binds. *)
Fixpoint dispatch (routes : list Route) (method : Method) (path : list string)
    : option (Route * list (string * string)) :=
  match routes with
  | [] => None
  | r :: rest =>
      if decide (r_method r = method) then
        match matchPath (r_path r) path with
        | Some params => Some (r, params)
        | None => dispatch rest method path
        end
      else dispatch rest method path
  end.

(** The handlers that read [req.user]. *)
Definition readsUser (h : Handler) : bool :=
  match h with
  | H_addQuiz | H_getAllQuizzes | H_submitQuiz => true
  | _ => false
  end.

(** The handlers that write to a collection. *)
Definition writes (h : Handler) : bool :=
  match h with
  | H_addQuiz | H_updateQuiz | H_deleteQuiz | H_deleteQuestion
  | H_submitQuiz | H_saveCompletedQuiz => true
  | _ => false
  end.

(** The names a handler reads from [req.params]. *)
Definition paramsOf (h : Handler) : list string :=
  match h with
  | H_updateQuiz | H_deleteQuiz | H_getSingleQuiz => ["id"]
  | H_deleteQuestion => ["quizId"; "questionId"]
  | H_submitQuiz | H_getQuizLeaderboard => ["quizId"]
  | H_getCompletedQuizzes => ["studentId"]
  | H_addQuiz | H_getAllQuizzes | H_getLatestQuiz | H_saveCompletedQuiz => []
  end.

(** The names a route path binds. *)
Fixpoint paramNames (pattern : list Segment) : list string :=
  match pattern with
  | [] => []
  | Lit _ :: rest => paramNames rest
  | Param name :: rest => name :: paramNames rest
  end.

(** ** Further notions *)

(** The number of stored attempts of a student at a quiz. *)
Definition countAttempts (student quizId : ObjectId) (db : Db) : nat :=
  length (filter (λ c, cq_student c = student ∧ cq_quiz c = quizId)
            (completedQuizzes db)).

(** The score records of a quiz, as the leaderboard query selects them. *)
Definition scoresOf (quizId : ObjectId) (db : Db) : list Score :=
  filter (λ s, s_quizId s = quizId) (scores db).

(** The summary [getCompletedQuizzes] gives of an attempt. *)
Definition summaryOf (c : CompletedQuiz) (q : Quiz) : CompletedSummary :=
  mkCompletedSummary
    (mkSummary (cq_score c) (cq_totalQuestions c) (cq_completedAt c))
    (Some q).

(** A snapshotted question that was answered correctly. *)
Definition answeredCorrectly (e : AnsweredQuestion) : Prop :=
  strictEqStr (aq_correctAnswer e) (aq_selectedOption e) = true.

Global Instance answeredCorrectly_dec e : Decision (answeredCorrectly e).
Proof. unfold answeredCorrectly. apply _. Defined.

(** The attempt of a quiz without questions. *)
Definition emptyAttemptOf (env : Env) (user : User) (quizId : string)
    : CompletedQuiz :=
  mkCompleted (newId env 0) (user_id user) quizId 0 0 NaN [] (now env).

(** ** More sample data *)

Module Scenario.

(** A cast of well-typed fields of a completed quiz: strings for the two
    references, a natural number for [score] and [totalQuestions], a number
    for [percentage], an empty snapshot. *)
Definition castNat (v : jsval) : option nat :=
  match v with
  | VNum (Fin q) =>
      if decide (Qc_of_nat (Z.to_nat (Qfloor (this q))) = q)
      then Some (Z.to_nat (Qfloor (this q))) else None
  | _ => None
  end.

Definition castCompleted : CompletedCast :=
  λ vstudent vquiz vscore vtotal vpercentage vquestions,
    student ← Sample.castString vstudent;
    quiz ← Sample.castString vquiz;
    score ← castNat vscore;
    total ← castNat vtotal;
    percentage ← match vpercentage with VNum n => Some n | _ => None end;
    match vquestions with
    | VArr [] => Some (mkCompletedFields student quiz score total percentage [])
    | _ => None
    end.

Definition archiveBody : jsval :=
  VObj [("student", VStr "alice"); ("quiz", VStr "quiz1");
        ("score", VNum (num_of_nat 3)); ("totalQuestions", VNum (num_of_nat 3));
        ("percentage", VNum (num_of_nat 100)); ("questions", VArr [])].

Definition newQuizBody : jsval :=
  Sample.quizBody (VArr [Sample.question "1+1?" ["1"; "2"] "2"])
    (VNum (num_of_nat 10)).

End Scenario.

(** * Properties of the controller *)

(** Running a handler: unfold the plumbing of [M]. *)
Ltac run :=
  cbv beta iota zeta delta
    [catchAsyncErrors mbind M_bind bind mret M_ret ret gets modify liftE
     throw try fst snd].

(** ** The quiz collection *)

Lemma findQuiz_Some id l q :
  findQuiz id l = Some q → q ∈ l ∧ quiz_id q = id.
Proof.
  unfold findQuiz. intros H. apply find_some in H as [Hin Hid].
  apply bool_decide_eq_true in Hid. split; [by apply list_elem_of_In | done].
Qed.

Lemma findQuiz_cons id x l :
  findQuiz id (x :: l) =
    if decide (quiz_id x = id) then Some x else findQuiz id l.
Proof.
  unfold findQuiz. simpl. destruct (decide (quiz_id x = id)) as [E|E].
  - by rewrite bool_decide_eq_true_2.
  - by rewrite bool_decide_eq_false_2.
Qed.

Global Arguments findQuiz : simpl never.

Lemma replaceFirst_same q l :
  findQuiz (quiz_id q) l = Some q → replaceFirst q l = l.
Proof.
  induction l as [|x l IH]; [done|].
  rewrite findQuiz_cons. simpl. destruct (decide (quiz_id x = quiz_id q)).
  - by intros [= ->].
  - intros H. by rewrite IH.
Qed.

Lemma findQuiz_replaceFirst q l :
  is_Some (findQuiz (quiz_id q) l) →
  findQuiz (quiz_id q) (replaceFirst q l) = Some q.
Proof.
  induction l as [|x l IH]; [by intros [? [=]]|].
  rewrite findQuiz_cons. simpl. destruct (decide (quiz_id x = quiz_id q)).
  - intros _. rewrite findQuiz_cons. by rewrite decide_True.
  - intros H. rewrite findQuiz_cons, decide_False by done. auto.
Qed.

Lemma findQuiz_replaceFirst_ne id q l :
  id ≠ quiz_id q → findQuiz id (replaceFirst q l) = findQuiz id l.
Proof.
  intros Hne. induction l as [|x l IH]; [done|].
  simpl. destruct (decide (quiz_id x = quiz_id q)) as [E|E].
  - rewrite !findQuiz_cons.
    destruct (decide (quiz_id q = id)), (decide (quiz_id x = id));
      congruence.
  - rewrite !findQuiz_cons. by rewrite IH.
Qed.

Lemma filter_all {A} (P : A → Prop) `{∀ x, Decision (P x)} (l : list A) :
  (∀ x, x ∈ l → P x) → filter P l = l.
Proof.
  induction l as [|x l IH]; [done|]. intros Hall.
  rewrite filter_cons_True by (apply Hall; left).
  f_equal. apply IH. intros y Hy. apply Hall. by right.
Qed.

Lemma filter_remove_unique (questionId : string) pre q post :
  q_id q = questionId →
  NoDup (map q_id (pre ++ q :: post)) →
  filter (λ x, q_id x ≠ questionId) (pre ++ q :: post) = pre ++ post.
Proof.
  intros Hq Hnd. rewrite map_app in Hnd. simpl in Hnd.
  apply NoDup_app in Hnd as (_ & Hpre & Hpost).
  apply NoDup_cons in Hpost as [Hpost _].
  rewrite filter_app, filter_cons_False by (intros ?; done).
  f_equal; apply filter_all; intros x Hx E.
  - apply (Hpre (q_id x)).
    + apply list_elem_of_fmap. eauto.
    + rewrite E, <- Hq. left.
  - apply Hpost. rewrite Hq, <- E. apply list_elem_of_fmap. eauto.
Qed.

(** ** C9: deleting one question *)

(** C9.  On an existing quiz [deleteQuestion] answers 200 and persists the
    question list without the questions whose identifier is [questionId],
    the other quizzes being untouched.  When no question has that
    identifier the database is unchanged; when one does (identifiers within
    a quiz being distinct) exactly that question leaves the list. *)
Theorem deleteQuestion_removes_only_match (quizId questionId : string)
    (db : Db) (quiz : Quiz) :
  findQuiz quizId (quizzes db) = Some quiz →
  ∃ db',
    deleteQuestion quizId questionId db =
      (Respond 200 true (Some "Question deleted successfully!") NoPayload, db')
    ∧ findQuiz quizId (quizzes db') =
        Some (setQuestions quiz
                (filter (λ q, q_id q ≠ questionId) (questions quiz)))
    ∧ (∀ id, id ≠ quizId → findQuiz id (quizzes db') = findQuiz id (quizzes db))
    ∧ completedQuizzes db' = completedQuizzes db ∧ scores db' = scores db
    ∧ ((∀ q, q ∈ questions quiz → q_id q ≠ questionId) → db' = db)
    ∧ (∀ pre q post,
         questions quiz = pre ++ q :: post → q_id q = questionId →
         NoDup (map q_id (questions quiz)) →
         ∃ quiz', findQuiz quizId (quizzes db') = Some quiz'
                  ∧ questions quiz' = pre ++ post).
Proof.
  intros Hfind. destruct (findQuiz_Some _ _ _ Hfind) as [_ Hid].
  unfold deleteQuestion, deleteQuestion_handler, Quiz_findById, Quiz_save.
  run. rewrite Hfind. simpl.
  set (quiz' := setQuestions quiz _).
  assert (Hid' : quiz_id quiz' = quizId) by done.
  assert (Hnew : findQuiz quizId (replaceFirst quiz' (quizzes db))
                 = Some quiz').
  { rewrite <- Hid'. apply findQuiz_replaceFirst. rewrite Hid'. eauto. }
  eexists. split; [reflexivity|]. simpl.
  split; [done|]. split.
  { intros id Hne. apply findQuiz_replaceFirst_ne. congruence. }
  split; [done|]. split; [done|]. split.
  - intros Hnone. subst quiz'. rewrite filter_all by done.
    assert (setQuestions quiz (questions quiz) = quiz) as -> by by destruct quiz.
    unfold withQuizzes. rewrite replaceFirst_same by (by rewrite Hid).
    by destruct db.
  - intros pre q post Hqs Hq Hnd. exists quiz'. split; [done|].
    subst quiz'. simpl. rewrite Hqs in *. by apply filter_remove_unique.
Qed.

Lemma deleteQuestion_removes_only_match_witness :
  findQuiz "quiz1" (quizzes Sample.db0) = Some Sample.quizABC
  ∧ ∃ db',
      deleteQuestion "quiz1" "q2" Sample.db0 =
        (Respond 200 true (Some "Question deleted successfully!") NoPayload,
         db')
      ∧ ∃ quiz', findQuiz "quiz1" (quizzes db') = Some quiz'
                 ∧ questions quiz' =
                     [mkQuestion "q1" "First?" ["A"; "B"] "A";
                      mkQuestion "q3" "Third?" ["C"; "D"] "C"].
Proof.
  split; [reflexivity|].
  destruct (deleteQuestion_removes_only_match "quiz1" "q2" Sample.db0
              Sample.quizABC eq_refl)
    as (db' & Hrun & _ & _ & _ & _ & _ & Hone).
  exists db'. split; [exact Hrun|].
  apply (Hone [mkQuestion "q1" "First?" ["A"; "B"] "A"]
              (mkQuestion "q2" "Second?" ["A"; "B"] "B")
              [mkQuestion "q3" "Third?" ["C"; "D"] "C"]);
    [reflexivity | reflexivity |].
  apply (bool_decide_unpack _). vm_compute. exact I.
Defined.

(** ** Submitting a quiz *)

Lemma getProp_not_nullish v k : ¬ nullish v → ∃ x, getProp v k = inr x.
Proof.
  unfold nullish. destruct v; simpl; eauto; intros H; exfalso; apply H; auto.
Qed.

Lemma findOne_Some quizId student (l : list CompletedQuiz) :
  (∃ c, c ∈ l ∧ cq_student c = student ∧ cq_quiz c = quizId) →
  ∃ prev,
    List.find (λ c, bool_decide (cq_quiz c = quizId) &&
                    bool_decide (cq_student c = student)) l = Some prev
    ∧ prev ∈ l ∧ cq_student prev = student ∧ cq_quiz prev = quizId.
Proof.
  intros (c & Hin & Hs & Hq).
  destruct (List.find _ l) as [prev|] eqn:Hfind.
  - exists prev. split; [done|]. apply find_some in Hfind as [Hin' Hp].
    apply andb_true_iff in Hp as [Hq' Hs'].
    apply bool_decide_eq_true in Hq', Hs'.
    by rewrite <- list_elem_of_In in Hin'.
  - exfalso. apply list_elem_of_In in Hin.
    pose proof (find_none _ _ Hfind c Hin) as Hc. simpl in Hc.
    by rewrite !bool_decide_eq_true_2 in Hc.
Qed.

(** ** C1: a second submission *)

(** C1 (as the code has it).  When a completed attempt of the student for
    the quiz is already stored, [submitQuiz] writes nothing, so no second
    attempt appears, and it answers with the stored attempt in [result];
    the response is sent directly with status 400 and [success: false]. *)
Theorem submitQuiz_again_rejected (odm : Odm) (env : Env) (user : User)
    (quizId : string) (body : jsval) (db : Db) :
  ¬ nullish body →
  (∃ c, c ∈ completedQuizzes db ∧ cq_student c = user_id user
        ∧ cq_quiz c = quizId) →
  ∃ prev,
    prev ∈ completedQuizzes db ∧ cq_student prev = user_id user
    ∧ cq_quiz prev = quizId
    ∧ submitQuiz odm env user quizId body db =
        (Respond 400 false (Some "You have already taken this quiz.")
           (P_result prev), db).
Proof.
  intros Hbody Hex.
  destruct (getProp_not_nullish body "answers" Hbody) as [answers Ha].
  destruct (findOne_Some _ _ _ Hex) as (prev & Hfind & Hin & Hs & Hq).
  exists prev. repeat split; try done.
  unfold submitQuiz, submitQuiz_handler, CompletedQuiz_findOne. run.
  rewrite Ha. run. by rewrite Hfind.
Qed.

Lemma submitQuiz_again_rejected_witness :
  ¬ nullish Sample.bodyABX
  ∧ (∃ c, c ∈ completedQuizzes Sample.db1
          ∧ cq_student c = user_id Sample.alice ∧ cq_quiz c = "quiz1")
  ∧ ∃ prev,
      submitQuiz Sample.odm (Sample.envAt 300 "c") Sample.alice "quiz1"
        Sample.bodyABX Sample.db1 =
        (Respond 400 false (Some "You have already taken this quiz.")
           (P_result prev), Sample.db1).
Proof.
  assert (H1 : ¬ nullish Sample.bodyABX) by (intros [|]; done).
  assert (H2 : ∃ c, c ∈ completedQuizzes Sample.db1
                    ∧ cq_student c = user_id Sample.alice
                    ∧ cq_quiz c = "quiz1").
  { eexists. split; [vm_compute; left|]. split; reflexivity. }
  split; [exact H1|]. split; [exact H2|].
  destruct (submitQuiz_again_rejected Sample.odm (Sample.envAt 300 "c")
              Sample.alice "quiz1" Sample.bodyABX Sample.db1 H1 H2)
    as (prev & _ & _ & _ & Hrun).
  exists prev. exact Hrun.
Defined.

(** The response to a second submission is no success response: the status
    is 400 and the flag is [false]. *)
Lemma submitQuiz_again_is_not_success :
  let out := fst (submitQuiz Sample.odm (Sample.envAt 300 "c") Sample.alice
                    "quiz1" Sample.bodyABX Sample.db1) in
  isSuccess out = false
  ∧ ∃ prev, out = Respond 400 false
                    (Some "You have already taken this quiz.")
                    (P_result prev).
Proof. vm_compute. split; [reflexivity|]. eexists. reflexivity. Qed.

(** ** Numbers *)

Lemma Qc_of_nat_eq_0 n : Qc_of_nat n = 0%Qc ↔ n = 0.
Proof.
  unfold Qc_of_nat. rewrite <- Z2Qc_inj_0, Z2Qc_inj_iff. lia.
Qed.

Lemma Qc_of_nat_pos n : n ≠ 0 → (0 < Qc_of_nat n)%Qc.
Proof.
  intros Hn. unfold Qc_of_nat. rewrite <- Z2Qc_inj_0, <- Z2Qc_inj_lt. lia.
Qed.

Lemma Qc_of_nat_mul n m : Qc_of_nat (n * m) = (Qc_of_nat n * Qc_of_nat m)%Qc.
Proof. unfold Qc_of_nat. by rewrite Nat2Z.inj_mul, Z2Qc_inj_mul. Qed.

(** [(score / total) * 100], as [submitQuiz] computes it, is
    [100 × score / total]; both are [NaN] when [score] and [total] are 0. *)
Lemma percentage_formula score total :
  jsmul (jsdiv (num_of_nat score) (num_of_nat total)) (num_of_nat 100) =
  percentageOf score total.
Proof.
  unfold percentageOf, num_of_nat. cbn [jsmul]. unfold jsdiv.
  assert (H100 : Qc_of_nat 100 ≠ 0%Qc) by (rewrite Qc_of_nat_eq_0; lia).
  assert (P100 : (0 < Qc_of_nat 100)%Qc) by (apply Qc_of_nat_pos; lia).
  destruct (decide (Qc_of_nat total = 0%Qc)) as [Ht|Ht].
  - rewrite <- Qc_of_nat_mul.
    destruct (decide (score = 0)) as [->|Hs].
    + pose proof (proj2 (Qc_of_nat_eq_0 0) eq_refl).
      pose proof (proj2 (Qc_of_nat_eq_0 (100 * 0)) eq_refl).
      repeat case_decide; done.
    + assert (Qc_of_nat score ≠ 0%Qc) by (rewrite Qc_of_nat_eq_0; lia).
      assert (Qc_of_nat (100 * score) ≠ 0%Qc)
        by (rewrite Qc_of_nat_eq_0; lia).
      assert (0 < Qc_of_nat score)%Qc by (apply Qc_of_nat_pos; lia).
      assert (0 < Qc_of_nat (100 * score))%Qc by (apply Qc_of_nat_pos; lia).
      repeat (case_decide; cbn [jsmul]; try done).
  - cbn [jsmul]. f_equal. by field.
Qed.

Lemma percentageOf_pos score total :
  total ≠ 0 →
  percentageOf score total =
    Fin (Qc_of_nat 100 * Qc_of_nat score / Qc_of_nat total)%Qc.
Proof.
  intros Ht. unfold percentageOf, num_of_nat. cbn [jsmul jsdiv].
  by rewrite decide_False by (rewrite Qc_of_nat_eq_0; lia).
Qed.

Lemma percentageOf_0_0 : percentageOf 0 0 = NaN.
Proof. reflexivity. Qed.

(** ** The grading loops *)





Lemma scoreLoop_bounds qs answers :
  ∀ index score n,
    scoreLoop qs answers index score = inr n →
    score ≤ n ≤ score + length qs.
Proof.
  induction qs as [|q qs IH]; intros index score n.
  - simpl. intros [= <-]. lia.
  - cbn [scoreLoop]. unfold mbind, Error_bind.
    destruct (getIndex answers index) as [e|a]; [done|]. cbn [bindE].
    destruct (getProp a "selectedOption") as [e|sel]; [done|]. cbn [bindE].
    intros H. apply IH in H. simpl. destruct (strictEqStr _ _); lia.
Qed.


(** ** Running [submitQuiz] on a first submission *)

Lemma findOne_None quizId student (db : Db) :
  ¬ hasAttempt student quizId db →
  List.find (λ c, bool_decide (cq_quiz c = quizId) &&
                  bool_decide (cq_student c = student))
            (completedQuizzes db) = None.
Proof.
  intros Hno. destruct (List.find _ _) as [c|] eqn:Hfind; [|done].
  exfalso. apply Hno. apply find_some in Hfind as [Hin Hp].
  apply andb_true_iff in Hp as [Hq Hs]. apply bool_decide_eq_true in Hq, Hs.
  exists c. by rewrite list_elem_of_In.
Qed.

Lemma submitQuiz_fresh odm env user quizId body db answers quiz :
  getProp body "answers" = inr answers →
  ¬ hasAttempt (user_id user) quizId db →
  findQuiz quizId (quizzes db) = Some quiz →
  submitQuiz odm env user quizId body db =
    match scoreLoop (questions quiz) answers 0 0 with
    | inl e => (Next e, db)
    | inr score =>
        match snapshotLoop (questions quiz) answers 0 with
        | inl e => (Next e, db)
        | inr snapshot =>
            let c := attemptOf env user quizId score
                       (length (questions quiz)) snapshot in
            if completedQuizValid odm c then
              let db1 := withCompleted (λ l, l ++ [c]) db in
              if scoreValid odm (scoreRecordOf env c) then
                (Respond 200 true (Some "Quiz submitted") (P_result c),
                 withScores (λ l, l ++ [scoreRecordOf env c]) db1)
              else (Next (ErrorHandler "Failed to save score" 500), db1)
            else (Next ModelError, db)
        end
    end.
Proof.
  intros Ha Hno Hquiz.
  unfold submitQuiz, submitQuiz_handler, CompletedQuiz_findOne, Quiz_findById,
    CompletedQuiz_create, Score_create.
  run. rewrite Ha. run. rewrite (findOne_None _ _ _ Hno), Hquiz.
  destruct (scoreLoop _ _ _ _) as [e|score]; [done|].
  destruct (snapshotLoop _ _ _) as [e|snapshot]; [done|].
  fold (attemptOf env user quizId score (length (questions quiz)) snapshot).
  set (c := attemptOf _ _ _ _ _ _).
  destruct (completedQuizValid odm c); [|done].
  change (mkScore _ _ _ _ _ _) with (scoreRecordOf env c).
  by destruct (scoreValid odm (scoreRecordOf env c)).
Qed.

Lemma app_singleton_neq {A} (l : list A) x : l ++ [x] ≠ l.
Proof.
  intros H. apply (f_equal length) in H. rewrite length_app in H.
  simpl in H. lia.
Qed.

(** A call either leaves the database as it is or is a first submission to
    an existing quiz. *)
Lemma submitQuiz_unchanged_or_fresh odm env user quizId body db :
  snd (submitQuiz odm env user quizId body db) = db
  ∨ ∃ answers quiz,
      getProp body "answers" = inr answers
      ∧ ¬ hasAttempt (user_id user) quizId db
      ∧ findQuiz quizId (quizzes db) = Some quiz.
Proof.
  destruct (getProp body "answers") as [e|answers] eqn:Ha.
  { left. unfold submitQuiz, submitQuiz_handler. run. by rewrite Ha. }
  destruct (decide (hasAttempt (user_id user) quizId db)) as [Hhas|Hno].
  { left. destruct (findOne_Some _ _ _ Hhas) as (prev & Hfind & _).
    unfold submitQuiz, submitQuiz_handler, CompletedQuiz_findOne.
    run. rewrite Ha. run. by rewrite Hfind. }
  destruct (findQuiz quizId (quizzes db)) as [quiz|] eqn:Hquiz.
  - right. by exists answers, quiz.
  - left. unfold submitQuiz, submitQuiz_handler, CompletedQuiz_findOne,
      Quiz_findById.
    run. rewrite Ha. run. by rewrite (findOne_None _ _ _ Hno), Hquiz.
Qed.


(** Whenever a call of [submitQuiz] stores an attempt, it is the attempt
    built from the grade of an existing quiz. *)
Lemma submitQuiz_created odm env user quizId body db c :
  completedQuizzes (snd (submitQuiz odm env user quizId body db)) =
    completedQuizzes db ++ [c] →
  ∃ answers quiz score snapshot,
    getProp body "answers" = inr answers
    ∧ ¬ hasAttempt (user_id user) quizId db
    ∧ findQuiz quizId (quizzes db) = Some quiz
    ∧ scoreLoop (questions quiz) answers 0 0 = inr score
    ∧ snapshotLoop (questions quiz) answers 0 = inr snapshot
    ∧ c = attemptOf env user quizId score (length (questions quiz)) snapshot
    ∧ completedQuizValid odm c = true.
Proof.
  intros Hc.
  destruct (submitQuiz_unchanged_or_fresh odm env user quizId body db)
    as [Hsame | (answers & quiz & Ha & Hno & Hquiz)].
  { rewrite Hsame in Hc. by apply symmetry, app_singleton_neq in Hc. }
  rewrite (submitQuiz_fresh _ _ _ _ _ _ _ _ Ha Hno Hquiz) in Hc.
  destruct (scoreLoop _ _ _ _) as [e|score] eqn:Hscore;
    [by apply symmetry, app_singleton_neq in Hc|].
  destruct (snapshotLoop _ _ _) as [e|snapshot] eqn:Hsnap;
    [by apply symmetry, app_singleton_neq in Hc|].
  cbn zeta in Hc.
  destruct (completedQuizValid odm _) eqn:Hvalid;
    [|by apply symmetry, app_singleton_neq in Hc].
  exists answers, quiz, score, snapshot.
  assert (c = attemptOf env user quizId score (length (questions quiz))
                snapshot) as ->.
  { destruct (scoreValid odm _); simpl in Hc;
      apply app_inj_tail in Hc as [_ Hc]; done. }
  done.
Qed.

(** ** C2: the score counts position-aligned matches *)




(** ** C3: bounds of the score, and the percentage *)



(** ** C4: the score record fails after the attempt was stored *)



(** ** C10: answers that do not reach every question *)

Lemma getProp_error v k e : getProp v k = inl e → e = TypeError.
Proof. destruct v; simpl; congruence. Qed.

Lemma scoreLoop_short (answers : list jsval) qs :
  ∀ index score,
    index ≤ length answers → length answers < index + length qs →
    scoreLoop qs (VArr answers) index score = inl TypeError.
Proof.
  induction qs as [|q qs IH]; intros index score Hle Hlt.
  - simpl in Hlt. lia.
  - cbn [scoreLoop]. unfold mbind, Error_bind. cbn [getIndex bindE].
    destruct (answers !! index) as [a|] eqn:Ha; cbn [from_option id].
    + destruct (getProp a "selectedOption") as [e|sel] eqn:Hsel.
      * by rewrite (getProp_error _ _ _ Hsel).
      * cbn [bindE]. apply IH.
        -- apply lookup_lt_Some in Ha. lia.
        -- simpl in Hlt. lia.
    + done.
Qed.

Lemma scoreLoop_nullish answers q qs index score :
  nullish answers →
  scoreLoop (q :: qs) answers index score = inl TypeError.
Proof. by intros [-> | ->]. Qed.

(** C10 (as the code has it).  On a first submission to an existing quiz,
    when the answers array has fewer entries than the quiz has questions, or
    when the answers are missing and the quiz has at least one question,
    the scoring loop throws a [TypeError] on [answers[index].selectedOption]
    before anything is written: the database is unchanged and the handler
    forwards the [TypeError], not an [ErrorHandler] of status 400. *)
Theorem submitQuiz_short_answers_throw (odm : Odm) (env : Env) (user : User)
    (quizId : string) (body : jsval) (db : Db) (quiz : Quiz)
    (answers : jsval) :
  getProp body "answers" = inr answers →
  ¬ hasAttempt (user_id user) quizId db →
  findQuiz quizId (quizzes db) = Some quiz →
  (∃ l, answers = VArr l ∧ length l < length (questions quiz))
  ∨ (nullish answers ∧ questions quiz ≠ []) →
  scoreLoop (questions quiz) answers 0 0 = inl TypeError
  ∧ submitQuiz odm env user quizId body db = (Next TypeError, db)
  ∧ ¬ isValidationError (fst (submitQuiz odm env user quizId body db)).
Proof.
  intros Ha Hno Hquiz Hshort.
  assert (Hloop : scoreLoop (questions quiz) answers 0 0 = inl TypeError).
  { destruct Hshort as [(l & -> & Hlen) | [Hnull Hne]].
    - apply scoreLoop_short; lia.
    - destruct (questions quiz) as [|q qs]; [done|].
      by apply scoreLoop_nullish. }
  split; [done|].
  rewrite (submitQuiz_fresh _ _ _ _ _ _ _ _ Ha Hno Hquiz), Hloop.
  split; [done|]. by intros [message [=]].
Qed.

Lemma submitQuiz_short_answers_throw_witness :
  getProp Sample.bodyYes "answers" = inr (VArr [Sample.selected "yes"])
  ∧ ¬ hasAttempt (user_id Sample.alice) "quiz1" Sample.db0
  ∧ findQuiz "quiz1" (quizzes Sample.db0) = Some Sample.quizABC
  ∧ length [Sample.selected "yes"] < length (questions Sample.quizABC)
  ∧ submitQuiz Sample.odm (Sample.envAt 100 "a") Sample.alice "quiz1"
      Sample.bodyYes Sample.db0 = (Next TypeError, Sample.db0).
Proof.
  assert (H2 : ¬ hasAttempt (user_id Sample.alice) "quiz1" Sample.db0).
  { intros (c & Hin & _). simpl in Hin. by apply elem_of_nil in Hin. }
  split; [reflexivity|]. split; [exact H2|]. split; [reflexivity|].
  split; [simpl; lia|].
  apply (submitQuiz_short_answers_throw Sample.odm (Sample.envAt 100 "a")
           Sample.alice "quiz1" Sample.bodyYes Sample.db0 Sample.quizABC
           (VArr [Sample.selected "yes"]) eq_refl H2 eq_refl).
  left. eexists. split; [reflexivity | simpl; lia].
Defined.

(** With the answers missing and a quiz left without questions, the loop
    has nothing to read and does not throw: the submission goes on to the
    models, with a score of 0 and a percentage of [NaN]. *)
Lemma submitQuiz_missing_answers_no_questions :
  getProp (VObj []) "answers" = inr VUndef
  ∧ ¬ hasAttempt (user_id Sample.alice) "quiz0" Sample.dbEmptied
  ∧ (∃ quiz, findQuiz "quiz0" (quizzes Sample.dbEmptied) = Some quiz
             ∧ questions quiz = []
             ∧ scoreLoop (questions quiz) VUndef 0 0 = inr 0)
  ∧ submitQuiz Sample.odm (Sample.envAt 100 "a") Sample.alice "quiz0"
      (VObj []) Sample.dbEmptied =
      (Respond 200 true (Some "Quiz submitted")
         (P_result Sample.emptyAttempt),
       withScores
         (λ l, l ++ [scoreRecordOf (Sample.envAt 100 "a")
                       Sample.emptyAttempt])
         (withCompleted (λ l, l ++ [Sample.emptyAttempt]) Sample.dbEmptied))
  ∧ fst (submitQuiz Sample.odmNoNaN (Sample.envAt 100 "a") Sample.alice
           "quiz0" (VObj []) Sample.dbEmptied) = Next ModelError.
Proof.
  split; [reflexivity|]. split.
  { intros (c & Hin & _). vm_compute in Hin. by apply elem_of_nil in Hin. }
  split; [eexists; split; [reflexivity|]; split; reflexivity|].
  split; [|reflexivity]. vm_compute. reflexivity.
Qed.

(** ** C5: validation of a quiz body *)

Lemma getProp_field body k : ¬ nullish body → getProp body k = inr (field body k).
Proof.
  intros Hb. unfold field.
  by destruct (getProp_not_nullish body k Hb) as [v ->].
Qed.


(** One turn of the loop: it throws on [null] and [undefined], hands a 400
    to [next] on a rejected entry, and falls through otherwise. *)
Lemma checkQuestion_cases q :
  (nullish q ∧ checkQuestion q = inl TypeError)
  ∨ (questionRejected q
     ∧ ∃ message, checkQuestion q = inr (Some (ErrorHandler message 400)))
  ∨ (¬ nullish q ∧ ¬ questionRejected q ∧ checkQuestion q = inr None).
Proof.
  destruct q as [| |b|n|s|elems|props].
  1,2: left; split; [unfold nullish; auto | done].
  1-4: right; left; split;
    [right; split; [intros [|]; done | done] | by eexists].
  right. unfold checkQuestion, questionRejected, mbind, Error_bind.
  cbn [getProp bindE].
  destruct (truthy (assoc "question" props)) eqn:Ht; cbn [negb];
    [|left; split; [left; eexists; split; [done|auto] | by eexists]].
  destruct (truthy (assoc "options" props)) eqn:Ho; cbn [negb];
    [|left; split; [left; eexists; split; [done|auto] | by eexists]].
  destruct (truthy (assoc "correctAnswer" props)) eqn:Hc; cbn [negb];
    [|left; split; [left; eexists; split; [done|auto] | by eexists]].
  destruct (isArray (assoc "options" props)) eqn:Harr; cbn [negb orb];
    [|left; split; [left; eexists; split; [done|auto] | by eexists]].
  case_bool_decide as Hlen.
  - left. split; [left; eexists; split; [done|auto 6] | by eexists].
  - right. split; [intros [|]; done|]. split; [|done].
    intros [(props' & [= <-] & H) | [_ H]]; [|by eapply H].
    destruct H as [H|[H|[H|[H|H]]]]; congruence.
Qed.


Lemma checkQuestions_passes qs :
  checkQuestions qs = inr None
  ↔ Forall (λ q, ¬ nullish q ∧ ¬ questionRejected q) qs.
Proof.
  induction qs as [|q qs IH].
  - split; [by constructor | done].
  - cbn [checkQuestions]. unfold mbind, Error_bind.
    rewrite Forall_cons.
    destruct (checkQuestion_cases q)
      as [[Hn ->] | [[Hr [m ->]] | (Hn & Hr & ->)]]; cbn [bindE].
    + split; [done | by intros [[? _] _]].
    + split; [done | by intros [[_ ?] _]].
    + rewrite IH. split; [by intros ?; split | by intros [_ ?]].
Qed.











(** ** Sorted queries *)

Global Instance highestScoreFirst_total : Total highestScoreFirst.
Proof. intros a b. unfold highestScoreFirst. lia. Qed.

Global Instance highestScoreFirst_trans : Transitive highestScoreFirst.
Proof. intros a b c. unfold highestScoreFirst. lia. Qed.

Global Instance newestQuizFirst_total : Total newestQuizFirst.
Proof. intros a b. unfold newestQuizFirst. lia. Qed.

Global Instance newestQuizFirst_trans : Transitive newestQuizFirst.
Proof. intros a b c. unfold newestQuizFirst. lia. Qed.

Global Instance newestCompletedFirst_total : Total newestCompletedFirst.
Proof. intros a b. unfold newestCompletedFirst. lia. Qed.

Global Instance newestCompletedFirst_trans : Transitive newestCompletedFirst.
Proof. intros a b c. unfold newestCompletedFirst. lia. Qed.

Lemma StronglySorted_filter {A} (R : relation A) (P : A → Prop)
    `{∀ x, Decision (P x)} (l : list A) :
  StronglySorted R l → StronglySorted R (filter P l).
Proof.
  induction 1 as [|x l Hl IH Hx]; [constructor|].
  destruct (decide (P x)).
  - rewrite filter_cons_True by done. constructor; [done|].
    rewrite Forall_forall in Hx |- *.
    intros y [_ Hy]%list_elem_of_filter. by apply Hx.
  - by rewrite filter_cons_False.
Qed.

Lemma StronglySorted_map {A B} (f : A → B) (R : relation A) (S : relation B)
    (l : list A) :
  (∀ x y, R x y → S (f x) (f y)) →
  StronglySorted R l → StronglySorted S (map f l).
Proof.
  intros Hf. induction 1 as [|x l Hl IH Hx]; simpl; constructor; [done|].
  apply Forall_forall. intros y Hy%list_elem_of_In.
  apply in_map_iff in Hy as (z & <- & Hz).
  rewrite Forall_forall in Hx. apply Hf, Hx. by apply list_elem_of_In.
Qed.

Lemma map_le_score_populate db l :
  map le_score (map (populateStudent db) l) = l.
Proof. induction l as [|x l IH]; [done|]. simpl. by rewrite IH. Qed.

(** ** C8: the leaderboard *)

(** C8.  For a quiz identifier (the empty one is answered with a 400
    before any query), [getQuizLeaderboard] answers 200 with a list sorted
    by score in descending order: each entry scores at least as much as
    every entry after it.  Every entry is a score record of the store whose
    [quizId] is the requested one, and the list holds exactly the score
    records of that quiz. *)
Theorem getQuizLeaderboard_sorted_desc (quizId : string) (db : Db) :
  quizId ≠ "" →
  ∃ leaderboard,
    getQuizLeaderboard quizId db =
      (Respond 200 true None (P_leaderboard leaderboard), db)
    ∧ StronglySorted highestScoreFirst (map le_score leaderboard)
    ∧ Forall (λ e, s_quizId (le_score e) = quizId
                   ∧ le_score e ∈ scores db) leaderboard
    ∧ map le_score leaderboard ≡ₚ
        filter (λ s, s_quizId s = quizId) (scores db).
Proof.
  intros Hid. unfold getQuizLeaderboard, getQuizLeaderboard_handler,
    Score_findSortedPopulated.
  rewrite decide_False by done. run.
  eexists. split; [reflexivity|].
  rewrite map_le_score_populate.
  pose proof (merge_sort_Permutation highestScoreFirst
                (filter (λ s, s_quizId s = quizId) (scores db))) as Hperm.
  split; [apply StronglySorted_merge_sort; apply _|]. split; [|done].
  apply Forall_forall. intros e He%list_elem_of_In.
  apply in_map_iff in He as (s & <- & Hs). simpl.
  apply list_elem_of_In in Hs. rewrite Hperm in Hs.
  by apply list_elem_of_filter in Hs.
Qed.

Lemma getQuizLeaderboard_sorted_desc_witness :
  "quiz1" ≠ ""
  ∧ ∃ leaderboard,
      getQuizLeaderboard "quiz1" Sample.dbBoard =
        (Respond 200 true None (P_leaderboard leaderboard), Sample.dbBoard)
      ∧ map (λ e, (s_studentId (le_score e), s_score (le_score e)))
          leaderboard = [("bob", 3); ("alice", 2)].
Proof.
  assert (Hid : "quiz1" ≠ "") by done.
  split; [exact Hid|].
  destruct (getQuizLeaderboard_sorted_desc "quiz1" Sample.dbBoard Hid)
    as (leaderboard & Hrun & _).
  exists leaderboard. split; [exact Hrun|].
  vm_compute in Hrun. injection Hrun as <-. reflexivity.
Defined.

(** ** C7: the history of a student *)

Lemma omap_cons_eq {A B} (f : A → option B) x l :
  omap f (x :: l) =
    match f x with Some y => y :: omap f l | None => omap f l end.
Proof. reflexivity. Qed.

Lemma history_omap db l :
  map formatCompleted
    (filter (λ quiz, pc_quiz quiz ≠ None) (map (populateQuiz db) l)) =
  omap (resolvedSummary db) l.
Proof.
  induction l as [|c l IH]; [done|].
  rewrite omap_cons_eq. cbn [map]. unfold resolvedSummary at 1, populateQuiz at 1.
  destruct (findQuiz (cq_quiz c) (quizzes db)) as [q|] eqn:Hq.
  - rewrite filter_cons_True by done. cbn [map]. rewrite IH. reflexivity.
  - rewrite filter_cons_False by (intros H; by apply H). exact IH.
Qed.

Lemma StronglySorted_omap {A B} (f : A → option B) (R : relation A)
    (S : relation B) (l : list A) :
  (∀ x y x' y', R x y → f x = Some x' → f y = Some y' → S x' y') →
  StronglySorted R l → StronglySorted S (omap f l).
Proof.
  intros Hf. induction 1 as [|x l Hl IH Hx]; [constructor|].
  rewrite omap_cons_eq. destruct (f x) as [x'|] eqn:Hfx; [|done].
  constructor; [done|]. apply Forall_forall.
  intros y' (y & Hy & Hfy)%list_elem_of_omap.
  rewrite Forall_forall in Hx. eauto.
Qed.

Lemma omap_nil_iff {A B} (f : A → option B) (l : list A) :
  omap f l = [] ↔ Forall (λ x, f x = None) l.
Proof.
  induction l as [|x l IH]; [by split; [constructor|]|].
  rewrite omap_cons_eq, Forall_cons. destruct (f x).
  - split; [done | by intros [[=] _]].
  - rewrite IH. split; [done | by intros [_ ?]].
Qed.

(** C7 (as the code has it).  [getCompletedQuizzes] hands
    [ErrorHandler("No completed quizzes found", 404)] to [next] exactly
    when the student has no completed attempt at all.  Otherwise it answers
    200 with the student's attempts whose quiz still exists, newest first
    and each with its quiz resolved; the attempts whose quiz is gone are
    dropped after the 404 test, so the returned list is empty when every
    one of them refers to a quiz that no longer exists. *)
Theorem getCompletedQuizzes_history (studentId : string) (db : Db) :
  if decide (attemptsOf studentId db = []) then
    getCompletedQuizzes studentId db =
      (Next (ErrorHandler "No completed quizzes found" 404), db)
  else
    ∃ history,
      getCompletedQuizzes studentId db =
        (Respond 200 true None (P_completedQuizzes history), db)
      ∧ StronglySorted newestSummaryFirst history
      ∧ history ≡ₚ omap (resolvedSummary db) (attemptsOf studentId db)
      ∧ Forall (λ e, is_Some (cs_quiz e)) history
      ∧ (history = [] ↔
         Forall (λ c, findQuiz (cq_quiz c) (quizzes db) = None)
                (attemptsOf studentId db)).
Proof.
  unfold getCompletedQuizzes, getCompletedQuizzes_handler,
    CompletedQuiz_findPopulatedSorted. run.
  pose proof (merge_sort_Permutation newestCompletedFirst
                (attemptsOf studentId db)) as Hperm.
  rewrite length_map.
  destruct (decide (attemptsOf studentId db = [])) as [Hnil|Hsome].
  - rewrite decide_True; [done|]. by rewrite Hperm, Hnil.
  - rewrite decide_False.
    2:{ intros Hlen. apply Hsome, Permutation_nil. rewrite <- Hperm.
        by apply nil_length_inv in Hlen as ->. }
    eexists. split; [reflexivity|]. rewrite history_omap.
    assert (Hp : omap (resolvedSummary db)
                   (merge_sort newestCompletedFirst (attemptsOf studentId db))
                 ≡ₚ omap (resolvedSummary db) (attemptsOf studentId db))
      by (by rewrite Hperm).
    split; [|split; [done|split]].
    + eapply StronglySorted_omap;
        [|apply StronglySorted_merge_sort; apply _].
      intros x y x' y' Hxy Hx Hy. unfold resolvedSummary in Hx, Hy.
      destruct (findQuiz (cq_quiz x) _); [|done].
      destruct (findQuiz (cq_quiz y) _); [|done].
      injection Hx as <-. injection Hy as <-. exact Hxy.
    + apply Forall_forall.
      intros e (c & _ & Hc)%list_elem_of_omap. unfold resolvedSummary in Hc.
      destruct (findQuiz (cq_quiz c) _); [|done]. injection Hc as <-. eauto.
    + assert (Hiff : ∀ c, resolvedSummary db c = None
                          ↔ findQuiz (cq_quiz c) (quizzes db) = None).
      { intros c. unfold resolvedSummary.
        by destruct (findQuiz (cq_quiz c) _). }
      rewrite <- (Forall_iff _ _ _ Hiff), <- omap_nil_iff. split.
      * intros Hnil. rewrite Hnil in Hp. by apply Permutation_nil.
      * intros Hnil. rewrite Hnil in Hp. by apply Permutation_nil_r.
Qed.

(** Bob's only attempt refers to a deleted quiz: the list that comes back
    is empty, and it comes back with a 200. *)
Lemma getCompletedQuizzes_empty_history_is_200 :
  length (attemptsOf "bob" Sample.dbGone) = 1
  ∧ getCompletedQuizzes "bob" Sample.dbGone =
      (Respond 200 true None (P_completedQuizzes []), Sample.dbGone).
Proof. split; vm_compute; reflexivity. Qed.

(** ** C6: the quizzes a requester sees *)

Lemma filterBoolean_populated db (latest : option Quiz) l :
  filterBoolean (latest :: map pc_quiz (map (populateQuiz db) l)) =
  option_list latest ++
    omap (λ c, findQuiz (cq_quiz c) (quizzes db)) l.
Proof.
  unfold filterBoolean. rewrite omap_cons_eq.
  assert (omap id (map pc_quiz (map (populateQuiz db) l)) =
          omap (λ c, findQuiz (cq_quiz c) (quizzes db)) l) as ->.
  { induction l as [|c l IH]; [done|].
    cbn [map]. rewrite !omap_cons_eq, IH. done. }
  by destruct latest.
Qed.

Lemma latest_is_newest (l : list Quiz) :
  match head (merge_sort newestQuizFirst l) with
  | Some q => q ∈ l ∧ ∀ q', q' ∈ l → (createdAt q' ≤ createdAt q)%N
  | None => l = []
  end.
Proof.
  pose proof (merge_sort_Permutation newestQuizFirst l) as Hperm.
  pose proof (StronglySorted_merge_sort newestQuizFirst l) as Hsorted.
  destruct (merge_sort newestQuizFirst l) as [|q rest]; cbn [head].
  - by apply Permutation_nil.
  - split; [rewrite <- Hperm; left|].
    intros q' Hq'. rewrite <- Hperm in Hq'.
    apply StronglySorted_cons in Hsorted as [Hall _].
    apply elem_of_cons in Hq' as [->|Hin]; [done|].
    rewrite Forall_forall in Hall. by apply Hall.
Qed.



Lemma getCompletedQuizzes_history_witness :
  attemptsOf "alice" Sample.db3 ≠ []
  ∧ ∃ history,
      getCompletedQuizzes "alice" Sample.db3 =
        (Respond 200 true None (P_completedQuizzes history), Sample.db3)
      ∧ StronglySorted newestSummaryFirst history
      ∧ length history = 1
  ∧ attemptsOf "carol" Sample.db3 = []
  ∧ getCompletedQuizzes "carol" Sample.db3 =
      (Next (ErrorHandler "No completed quizzes found" 404), Sample.db3).
Proof.
  assert (Hsome : attemptsOf "alice" Sample.db3 ≠ []) by (by vm_compute).
  assert (Hnone : attemptsOf "carol" Sample.db3 = []) by reflexivity.
  split; [exact Hsome|].
  pose proof (getCompletedQuizzes_history "alice" Sample.db3) as Halice.
  rewrite decide_False in Halice by exact Hsome.
  destruct Halice as (history & Hrun & Hsorted & _).
  exists history. split; [exact Hrun|]. split; [exact Hsorted|]. split.
  { vm_compute in Hrun. injection Hrun as <-. reflexivity. }
  split; [exact Hnone|].
  pose proof (getCompletedQuizzes_history "carol" Sample.db3) as Hcarol.
  rewrite decide_True in Hcarol by exact Hnone. exact Hcarol.
Defined.

(** * Further properties *)

Ltac runReply := unfold catchAsyncErrorsReply; run.

(** ** Lookups in the quiz collection *)

Lemma findQuiz_None id l :
  findQuiz id l = None ↔ ∀ q, q ∈ l → quiz_id q ≠ id.
Proof.
  induction l as [|x l IH]; [by split; [intros _ ? ?%elem_of_nil|]|].
  rewrite findQuiz_cons. destruct (decide (quiz_id x = id)) as [E|E].
  - split; [done|]. intros H. exfalso. apply (H x); [left | done].
  - rewrite IH. split.
    + intros H q [->|Hq]%elem_of_cons; [done | by apply H].
    + intros H q Hq. apply H. by right.
Qed.

Lemma findQuiz_snoc id l q :
  findQuiz id (l ++ [q]) =
    match findQuiz id l with
    | Some x => Some x
    | None => if decide (quiz_id q = id) then Some q else None
    end.
Proof.
  induction l as [|x l IH].
  - simpl. by rewrite findQuiz_cons.
  - simpl. rewrite !findQuiz_cons. by destruct (decide (quiz_id x = id)).
Qed.

Lemma replaceFirst_ids q l : map quiz_id (replaceFirst q l) = map quiz_id l.
Proof.
  induction l as [|x l IH]; [done|]. simpl.
  destruct (decide (quiz_id x = quiz_id q)) as [E|E]; simpl; congruence.
Qed.


Lemma deleteFirst_sublist id l : deleteFirst id l `sublist_of` l.
Proof.
  induction l as [|x l IH]; [done|]. simpl.
  destruct (decide (quiz_id x = id)).
  - by apply sublist_cons.
  - by apply sublist_skip.
Qed.

Lemma deleteFirst_ids_NoDup id l :
  NoDup (map quiz_id l) → NoDup (map quiz_id (deleteFirst id l)).
Proof.
  intros Hnd. eapply sublist_NoDup; [exact Hnd|]. clear Hnd.
  induction l as [|x l IH]; [done|]. simpl.
  destruct (decide (quiz_id x = id)); simpl.
  - by apply sublist_cons.
  - by apply sublist_skip.
Qed.


(** ** What [addQuiz] stores *)

Lemma addQuiz_created odm env user body db status success message payload db' :
  addQuiz odm env user body db = (Respond status success message payload, db') →
  ∃ f,
    validateQuiz (field body "title") (field body "questions")
      (field body "duration") = inr None
    ∧ castQuiz odm (field body "title")
        (jsor (field body "description") (VStr "")) (field body "questions")
        (field body "duration") = Some f
    ∧ payload =
        P_quiz (mkQuiz (newId env 0) (f_title f) (f_description f)
                  (numberQuestions env (f_questions f)) (f_duration f)
                  (user_id user) (now env))
    ∧ db' =
        withQuizzes
          (λ l, l ++ [mkQuiz (newId env 0) (f_title f) (f_description f)
                        (numberQuestions env (f_questions f)) (f_duration f)
                        (user_id user) (now env)]) db
    ∧ status = 201.
Proof.
  unfold addQuiz, addQuiz_handler, Quiz_create.
  destruct (decide (nullish body)) as [[-> | ->] | Hbody]; [done | done |].
  run. rewrite !(getProp_field body _ Hbody).
  destruct (validateQuiz _ _ _) as [e|[e|]]; [done | done |].
  destruct (castQuiz odm _ _ _ _) as [f|]; [|done].
  intros [= <- <- <- <- <-]. by exists f.
Qed.

(** ** Reading a quiz back *)

(** X1.  The quiz [addQuiz] answers with can be read back: when the
    identifier the driver generates is not yet in the collection,
    [getSingleQuiz] of that identifier returns exactly the quiz of the 201
    response, created by the requester, and every other identifier is
    answered as before the insertion. *)
Theorem getSingleQuiz_after_addQuiz (odm : Odm) (env : Env) (user : User)
    (body : jsval) (db db' : Db) (status : nat) (success : bool)
    (message : option string) (payload : Payload) :
  addQuiz odm env user body db = (Respond status success message payload, db') →
  findQuiz (newId env 0) (quizzes db) = None →
  ∃ newQuiz,
    payload = P_quiz newQuiz
    ∧ quiz_id newQuiz = newId env 0
    ∧ createdBy newQuiz = user_id user
    ∧ getSingleQuiz (newId env 0) db' =
        (Respond 200 true None (P_quiz newQuiz), db')
    ∧ ∀ id, id ≠ newId env 0 →
            getSingleQuiz id db' = (fst (getSingleQuiz id db), db').
Proof.
  intros Hadd Hfresh.
  destruct (addQuiz_created _ _ _ _ _ _ _ _ _ _ Hadd)
    as (f & _ & _ & -> & -> & _).
  eexists. split; [reflexivity|]. split; [done|]. split; [done|].
  unfold getSingleQuiz, getSingleQuiz_handler, Quiz_findById. run.
  cbn [quizzes withQuizzes]. split.
  - rewrite findQuiz_snoc, Hfresh. cbn [quiz_id]. by rewrite decide_True.
  - intros id Hne. rewrite findQuiz_snoc. cbn [quiz_id].
    destruct (findQuiz id (quizzes db)); [done|].
    by rewrite decide_False.
Qed.

Lemma getSingleQuiz_after_addQuiz_witness :
  findQuiz "n0" (quizzes Sample.db0) = None
  ∧ ∃ newQuiz db',
      addQuiz Sample.odm (Sample.envAt 7 "n") Sample.root Scenario.newQuizBody
        Sample.db0 =
        (Respond 201 true (Some "Quiz added successfully!") (P_quiz newQuiz),
         db')
      ∧ title newQuiz = "Numbers"
      ∧ getSingleQuiz "n0" db' = (Respond 200 true None (P_quiz newQuiz), db').
Proof.
  assert (Hfresh : findQuiz (newId (Sample.envAt 7 "n") 0)
                     (quizzes Sample.db0) = None) by reflexivity.
  split; [exact Hfresh|].
  destruct (addQuiz Sample.odm (Sample.envAt 7 "n") Sample.root
              Scenario.newQuizBody Sample.db0) as [out db'] eqn:Hadd.
  assert (∃ nq, out = Respond 201 true (Some "Quiz added successfully!")
                        (P_quiz nq) ∧ title nq = "Numbers")
    as (nq & -> & Htitle).
  { vm_compute in Hadd. injection Hadd as <- _. eexists.
    split; reflexivity. }
  destruct (getSingleQuiz_after_addQuiz _ _ _ _ _ _ _ _ _ _ Hadd Hfresh)
    as (nq' & [= <-] & _ & _ & Hget & _).
  exists nq, db'. split; [reflexivity|]. split; [exact Htitle | exact Hget].
Defined.

(** ** Deleting a quiz *)

Lemma resolvedSummary_quiz db c e :
  resolvedSummary db c = Some e →
  ∃ q, findQuiz (cq_quiz c) (quizzes db) = Some q ∧ e = summaryOf c q.
Proof.
  unfold resolvedSummary. destruct (findQuiz _ _) as [q|]; [|done].
  intros [= <-]. eauto.
Qed.



(** ** The latest quiz *)

(** X3.  [getLatestQuiz] answers 404 exactly when the collection is empty;
    otherwise it answers 200 with a stored quiz that no stored quiz is newer
    than, the same quiz that heads the list [getAllQuizzes] gives a
    requester who is not an admin. *)
Theorem getLatestQuiz_newest (db : Db) (user : User) :
  match quizzes db with
  | [] =>
      getLatestQuiz db = (ReplyNext (ErrorHandler "No quizzes found!" 404), db)
  | _ :: _ =>
      ∃ latestQuiz,
        getLatestQuiz db = (ReplyLatest 200 true latestQuiz, db)
        ∧ latestQuiz ∈ quizzes db
        ∧ (∀ q, q ∈ quizzes db → (createdAt q ≤ createdAt latestQuiz)%N)
        ∧ (role user ≠ "admin" →
           ∃ rest, getAllQuizzes user db =
                     (Respond 200 true None (P_quizzes (latestQuiz :: rest)),
                      db))
  end.
Proof.
  unfold getLatestQuiz, getLatestQuiz_handler, getAllQuizzes,
    getAllQuizzes_handler, Quiz_findLatest, CompletedQuiz_findPopulated.
  runReply. pose proof (latest_is_newest (quizzes db)) as Hlatest.
  destruct (head (merge_sort newestQuizFirst (quizzes db))) as [q|] eqn:Hhead.
  - destruct Hlatest as [Hin Hmax].
    destruct (quizzes db) as [|x l] eqn:Hq; [by apply elem_of_nil in Hin|].
    exists q. do 3 (split; [done|]).
    intros Hrole. rewrite decide_False by done. run. rewrite Hq, Hhead.
    eexists. unfold filterBoolean. rewrite omap_cons_eq. reflexivity.
  - by rewrite Hlatest.
Qed.

(** X4.  A quiz added later than every stored quiz becomes the latest one:
    after a successful [addQuiz] at a time past every [createdAt],
    [getLatestQuiz] returns the quiz just added. *)
Theorem getLatestQuiz_after_addQuiz (odm : Odm) (env : Env) (user : User)
    (body : jsval) (db db' : Db) (status : nat) (success : bool)
    (message : option string) (newQuiz : Quiz) :
  addQuiz odm env user body db =
    (Respond status success message (P_quiz newQuiz), db') →
  (∀ q, q ∈ quizzes db → (createdAt q < now env)%N) →
  getLatestQuiz db' = (ReplyLatest 200 true newQuiz, db').
Proof.
  intros Hadd Hpast.
  destruct (addQuiz_created _ _ _ _ _ _ _ _ _ _ Hadd)
    as (f & _ & _ & [= ->] & -> & _).
  set (newQuiz := mkQuiz _ _ _ _ _ _ _).
  unfold getLatestQuiz, getLatestQuiz_handler, Quiz_findLatest. runReply.
  cbn [quizzes withQuizzes].
  pose proof (latest_is_newest (quizzes db ++ [newQuiz])) as Hlatest.
  destruct (head (merge_sort newestQuizFirst (quizzes db ++ [newQuiz])))
    as [q|]; [|by destruct (quizzes db)].
  destruct Hlatest as [Hin Hmax].
  apply elem_of_app in Hin as [Hold | ->%list_elem_of_singleton]; [|done].
  exfalso. specialize (Hpast q Hold).
  assert (Hnew : (createdAt newQuiz ≤ createdAt q)%N).
  { apply Hmax, elem_of_app. right. by apply list_elem_of_singleton. }
  subst newQuiz. cbn [createdAt] in Hnew. lia.
Qed.

Lemma getLatestQuiz_after_addQuiz_witness :
  (∀ q, q ∈ quizzes Sample.db0 → (createdAt q < 7)%N)
  ∧ ∃ newQuiz db',
      addQuiz Sample.odm (Sample.envAt 7 "n") Sample.root Scenario.newQuizBody
        Sample.db0 =
        (Respond 201 true (Some "Quiz added successfully!") (P_quiz newQuiz),
         db')
      ∧ getLatestQuiz db' = (ReplyLatest 200 true newQuiz, db').
Proof.
  assert (Hpast : ∀ q, q ∈ quizzes Sample.db0
                       → (createdAt q < now (Sample.envAt 7 "n"))%N).
  { intros q Hq. simpl in Hq.
    apply elem_of_cons in Hq as [-> | Hq]; [done|].
    apply elem_of_cons in Hq as [-> | Hq]; [done|].
    by apply elem_of_nil in Hq. }
  split; [exact Hpast|].
  destruct (addQuiz Sample.odm (Sample.envAt 7 "n") Sample.root
              Scenario.newQuizBody Sample.db0) as [out db'] eqn:Hadd.
  assert (∃ nq, out = Respond 201 true (Some "Quiz added successfully!")
                        (P_quiz nq)) as (nq & ->).
  { vm_compute in Hadd. injection Hadd as <- _. by eexists. }
  exists nq, db'. split; [reflexivity|].
  exact (getLatestQuiz_after_addQuiz _ _ _ _ _ _ _ _ _ _ Hadd Hpast).
Defined.

(** ** What the handlers leave alone *)

(** X5.  The five reading handlers write nothing: whatever they answer, the
    database after the call is the database before it. *)
Theorem reading_handlers_write_nothing (user : User)
    (id quizId studentId : string) (db : Db) :
  snd (getSingleQuiz id db) = db
  ∧ snd (getLatestQuiz db) = db
  ∧ snd (getAllQuizzes user db) = db
  ∧ snd (getQuizLeaderboard quizId db) = db
  ∧ snd (getCompletedQuizzes studentId db) = db.
Proof.
  unfold getSingleQuiz, getSingleQuiz_handler, getLatestQuiz,
    getLatestQuiz_handler, getAllQuizzes, getAllQuizzes_handler,
    getQuizLeaderboard, getQuizLeaderboard_handler, getCompletedQuizzes,
    getCompletedQuizzes_handler, Quiz_findById, Quiz_findLatest, Quiz_find,
    CompletedQuiz_findPopulated, Score_findSortedPopulated,
    CompletedQuiz_findPopulatedSorted.
  runReply. repeat split.
  - by destruct (findQuiz id (quizzes db)).
  - by destruct (head _).
  - by destruct (decide (role user = "admin")).
  - by destruct (decide (quizId = "")).
  - by destruct (decide (length _ = 0)).
Qed.

Lemma addQuiz_shape odm env user body db :
  snd (addQuiz odm env user body db) = db
  ∨ ∃ q, quiz_id q = newId env 0
         ∧ snd (addQuiz odm env user body db) =
             withQuizzes (λ l, l ++ [q]) db.
Proof.
  unfold addQuiz, addQuiz_handler, Quiz_create.
  destruct (decide (nullish body)) as [[-> | ->] | Hbody];
    [by left | by left |].
  run. rewrite !(getProp_field body _ Hbody).
  destruct (validateQuiz _ _ _) as [e|[e|]]; [by left | by left |].
  destruct (castQuiz odm _ _ _ _) as [f|]; [|by left].
  right. eexists. split; [|reflexivity]. done.
Qed.

Lemma updateQuiz_shape odm env id body db :
  snd (updateQuiz odm env id body db) = db
  ∨ ∃ old q,
      findQuiz id (quizzes db) = Some old
      ∧ quiz_id q = quiz_id old ∧ createdBy q = createdBy old
      ∧ createdAt q = createdAt old
      ∧ updateQuiz odm env id body db =
          (Respond 200 true (Some "Quiz updated successfully!") (P_quiz q),
           withQuizzes (replaceFirst q) db).
Proof.
  unfold updateQuiz, updateQuiz_handler, Quiz_findByIdAndUpdate,
    Quiz_findById, Quiz_save.
  destruct (decide (nullish body)) as [[-> | ->] | Hbody];
    [by left | by left |].
  run. rewrite !(getProp_field body _ Hbody).
  destruct (validateQuiz _ _ _) as [e|[e|]]; [by left | by left |].
  destruct (castQuizUpdate odm _ _ _ _) as [u|]; [|by left].
  destruct (findQuiz id (quizzes db)) as [old|] eqn:Hold; [|by left].
  right. exists old. eexists. repeat apply conj; [.. | reflexivity]; done.
Qed.

Lemma deleteQuiz_shape id db :
  snd (deleteQuiz id db) = db
  ∨ snd (deleteQuiz id db) = withQuizzes (deleteFirst id) db.
Proof.
  unfold deleteQuiz, deleteQuiz_handler, Quiz_findById,
    Quiz_findByIdAndDelete.
  run. destruct (findQuiz id (quizzes db)); [by right | by left].
Qed.

Lemma deleteQuestion_shape quizId questionId db :
  snd (deleteQuestion quizId questionId db) = db
  ∨ ∃ q, snd (deleteQuestion quizId questionId db) =
           withQuizzes (replaceFirst q) db.
Proof.
  unfold deleteQuestion, deleteQuestion_handler, Quiz_findById, Quiz_save.
  run. destruct (findQuiz quizId (quizzes db)); [right; by eexists | by left].
Qed.

Lemma submitQuiz_shape odm env user quizId body db :
  snd (submitQuiz odm env user quizId body db) = db
  ∨ ∃ c,
      snd (submitQuiz odm env user quizId body db) =
        withCompleted (λ l, l ++ [c]) db
      ∨ snd (submitQuiz odm env user quizId body db) =
          withScores (λ l, l ++ [scoreRecordOf env c])
            (withCompleted (λ l, l ++ [c]) db).
Proof.
  destruct (submitQuiz_unchanged_or_fresh odm env user quizId body db)
    as [-> | (answers & quiz & Ha & Hno & Hquiz)]; [by left|].
  rewrite (submitQuiz_fresh _ _ _ _ _ _ _ _ Ha Hno Hquiz).
  destruct (scoreLoop _ _ _ _) as [e|score]; [by left|].
  destruct (snapshotLoop _ _ _) as [e|snapshot]; [by left|].
  cbn zeta. destruct (completedQuizValid odm _); [|by left].
  right. eexists. destruct (scoreValid odm _); [by right | by left].
Qed.

Lemma saveCompletedQuiz_shape cast odm env body db :
  snd (saveCompletedQuiz cast odm env body db) = db
  ∨ ∃ c, snd (saveCompletedQuiz cast odm env body db) =
           withCompleted (λ l, l ++ [c]) db.
Proof.
  unfold saveCompletedQuiz, saveCompletedQuiz_handler, CompletedQuiz_create.
  destruct (decide (nullish body)) as [[-> | ->] | Hbody];
    [by left | by left |].
  runReply. rewrite !(getProp_field body _ Hbody).
  destruct (cast _ _ _ _ _ _) as [f|]; [|by left].
  destruct (completedQuizValid odm _); [right; by eexists | by left].
Qed.

(** X6.  Each writing handler touches its own collection only: the four
    authoring handlers leave the completed attempts and the score records
    as they are, the two submission handlers leave the quizzes as they are,
    [saveCompletedQuiz] writes no score record, [submitQuiz] writes a score
    record only in a call that also stores an attempt, and no handler
    touches the users. *)
Theorem writing_handlers_keep_to_their_collection (cast : CompletedCast)
    (odm : Odm) (env : Env) (user : User) (id quizId questionId : string)
    (body : jsval) (db : Db) :
  (∀ db', db' = snd (addQuiz odm env user body db)
          ∨ db' = snd (updateQuiz odm env id body db)
          ∨ db' = snd (deleteQuiz id db)
          ∨ db' = snd (deleteQuestion quizId questionId db) →
          completedQuizzes db' = completedQuizzes db
          ∧ scores db' = scores db ∧ users db' = users db)
  ∧ (let db' := snd (submitQuiz odm env user quizId body db) in
     quizzes db' = quizzes db ∧ users db' = users db
     ∧ (scores db' = scores db
        ∨ ∃ c, completedQuizzes db' = completedQuizzes db ++ [c]
               ∧ scores db' = scores db ++ [scoreRecordOf env c]))
  ∧ (let db' := snd (saveCompletedQuiz cast odm env body db) in
     quizzes db' = quizzes db ∧ scores db' = scores db
     ∧ users db' = users db).
Proof.
  split; [|split].
  - intros db' [-> | [-> | [-> | ->]]].
    + by destruct (addQuiz_shape odm env user body db) as [-> | (q & _ & ->)].
    + destruct (updateQuiz_shape odm env id body db)
        as [-> | (old & q & _ & _ & _ & _ & ->)]; done.
    + by destruct (deleteQuiz_shape id db) as [-> | ->].
    + by destruct (deleteQuestion_shape quizId questionId db)
        as [-> | (q & ->)].
  - destruct (submitQuiz_shape odm env user quizId body db)
      as [-> | (c & [-> | ->])]; cbn; [auto | auto |].
    split; [done|]. split; [done|]. right. by exists c.
  - by destruct (saveCompletedQuiz_shape cast odm env body db)
      as [-> | (c & ->)].
Qed.

(** X7.  Quiz identifiers stay distinct: when they are distinct before a
    call and the identifier the driver would give a new quiz is not in use,
    they are distinct after any call of [addQuiz], [updateQuiz],
    [deleteQuiz] or [deleteQuestion]. *)
Theorem quiz_ids_stay_distinct (odm : Odm) (env : Env) (user : User)
    (id quizId questionId : string) (body : jsval) (db : Db) :
  NoDup (map quiz_id (quizzes db)) →
  findQuiz (newId env 0) (quizzes db) = None →
  NoDup (map quiz_id (quizzes (snd (addQuiz odm env user body db))))
  ∧ NoDup (map quiz_id (quizzes (snd (updateQuiz odm env id body db))))
  ∧ NoDup (map quiz_id (quizzes (snd (deleteQuiz id db))))
  ∧ NoDup (map quiz_id
             (quizzes (snd (deleteQuestion quizId questionId db)))).
Proof.
  intros Hnd Hfresh. repeat split.
  - destruct (addQuiz_shape odm env user body db) as [-> | (q & Hq & ->)];
      [done|].
    cbn [quizzes withQuizzes]. rewrite map_app. simpl.
    apply NoDup_app. split; [done|]. split; [|apply NoDup_singleton].
    intros x Hx ->%list_elem_of_singleton.
    apply list_elem_of_In, in_map_iff in Hx as (q' & Hid & Hin).
    apply list_elem_of_In in Hin.
    rewrite findQuiz_None in Hfresh. apply (Hfresh q' Hin). congruence.
  - destruct (updateQuiz_shape odm env id body db)
      as [-> | (old & q & _ & _ & _ & _ & ->)]; [done|].
    cbn [snd quizzes withQuizzes]. by rewrite replaceFirst_ids.
  - destruct (deleteQuiz_shape id db) as [-> | ->]; [done|].
    cbn [quizzes withQuizzes]. by apply deleteFirst_ids_NoDup.
  - destruct (deleteQuestion_shape quizId questionId db) as [-> | (q & ->)];
      [done|].
    cbn [quizzes withQuizzes]. by rewrite replaceFirst_ids.
Qed.

Lemma quiz_ids_stay_distinct_witness :
  NoDup (map quiz_id (quizzes Sample.db0))
  ∧ findQuiz "n0" (quizzes Sample.db0) = None
  ∧ NoDup (map quiz_id
             (quizzes (snd (addQuiz Sample.odm (Sample.envAt 7 "n")
                              Sample.root Scenario.newQuizBody Sample.db0))))
  ∧ NoDup (map quiz_id (quizzes (snd (deleteQuiz "quiz0" Sample.db0)))).
Proof.
  assert (Hnd : NoDup (map quiz_id (quizzes Sample.db0))).
  { apply (bool_decide_unpack _). vm_compute. exact I. }
  assert (Hfresh : findQuiz (newId (Sample.envAt 7 "n") 0)
                     (quizzes Sample.db0) = None) by reflexivity.
  split; [exact Hnd|]. split; [exact Hfresh|].
  destruct (quiz_ids_stay_distinct Sample.odm (Sample.envAt 7 "n")
              Sample.root "quiz0" "quiz0" "q0" Scenario.newQuizBody
              Sample.db0 Hnd Hfresh) as (Hadd & _ & Hdel & _).
  split; [exact Hadd | exact Hdel].
Defined.

(** ** Updating a quiz *)

Lemma updateQuiz_cases odm env id body db :
  (∃ e, updateQuiz odm env id body db = (Next e, db))
  ∨ ∃ old q,
      findQuiz id (quizzes db) = Some old
      ∧ quiz_id q = quiz_id old ∧ createdBy q = createdBy old
      ∧ createdAt q = createdAt old
      ∧ updateQuiz odm env id body db =
          (Respond 200 true (Some "Quiz updated successfully!") (P_quiz q),
           withQuizzes (replaceFirst q) db).
Proof.
  unfold updateQuiz, updateQuiz_handler, Quiz_findByIdAndUpdate,
    Quiz_findById, Quiz_save.
  destruct (decide (nullish body)) as [[-> | ->] | Hbody];
    [left; by eexists | left; by eexists |].
  run. rewrite !(getProp_field body _ Hbody).
  destruct (validateQuiz _ _ _) as [e|[e|]];
    [left; by eexists | left; by eexists |].
  destruct (castQuizUpdate odm _ _ _ _) as [u|]; [|left; by eexists].
  destruct (findQuiz id (quizzes db)) as [old|] eqn:Hold;
    [|left; by eexists].
  right. exists old. eexists. repeat apply conj; [.. | reflexivity]; done.
Qed.

(** X8.  [updateQuiz] answers either with an error, and then nothing was
    written, or with 200 and the updated quiz: that quiz replaces the stored
    quiz of the identifier and keeps its identifier, creator and creation
    time, the number of quizzes is unchanged and every other quiz is found
    as before. *)
Theorem updateQuiz_keeps_identity (odm : Odm) (env : Env) (id : string)
    (body : jsval) (db : Db) :
  match updateQuiz odm env id body db with
  | (Next _, db') => db' = db
  | (Respond status success message payload, db') =>
      ∃ old updated,
        payload = P_quiz updated ∧ status = 200 ∧ success = true
        ∧ findQuiz id (quizzes db) = Some old
        ∧ findQuiz id (quizzes db') = Some updated
        ∧ quiz_id updated = quiz_id old
        ∧ createdBy updated = createdBy old
        ∧ createdAt updated = createdAt old
        ∧ length (quizzes db') = length (quizzes db)
        ∧ ∀ id', id' ≠ id →
                 findQuiz id' (quizzes db') = findQuiz id' (quizzes db)
  end.
Proof.
  destruct (updateQuiz_cases odm env id body db)
    as [[e ->] | (old & q & Hold & Hid & Hby & Hat & ->)]; [done|].
  destruct (findQuiz_Some _ _ _ Hold) as [_ Hidold].
  exists old, q. do 4 (split; [done|]). cbn [quizzes withQuizzes].
  assert (Hqid : quiz_id q = id) by congruence.
  split; [rewrite <- Hqid; apply findQuiz_replaceFirst; rewrite Hqid; eauto|].
  do 3 (split; [done|]). split.
  - rewrite <- (length_map quiz_id), replaceFirst_ids. apply length_map.
  - intros id' Hne. apply findQuiz_replaceFirst_ne. congruence.
Qed.

(** ** The second way into the archive *)

Lemma countAttempts_snoc student quizId db c :
  countAttempts student quizId (withCompleted (λ l, l ++ [c]) db) =
    countAttempts student quizId db
    + (if decide (cq_student c = student ∧ cq_quiz c = quizId) then 1 else 0).
Proof.
  unfold countAttempts. cbn [completedQuizzes withCompleted].
  rewrite filter_app, length_app. f_equal.
  destruct (decide _) as [H|H].
  - by rewrite filter_cons_True.
  - by rewrite filter_cons_False.
Qed.

Lemma saveCompletedQuiz_stores cast odm env body db f :
  ¬ nullish body →
  cast (field body "student") (field body "quiz") (field body "score")
    (field body "totalQuestions") (field body "percentage")
    (field body "questions") = Some f →
  completedQuizValid odm
    (mkCompleted (newId env 0) (cf_student f) (cf_quiz f) (cf_score f)
       (cf_totalQuestions f) (cf_percentage f) (cf_questions f) (now env))
    = true →
  saveCompletedQuiz cast odm env body db =
    (ReplySaved 201 "Quiz completed successfully"
       (mkCompleted (newId env 0) (cf_student f) (cf_quiz f) (cf_score f)
          (cf_totalQuestions f) (cf_percentage f) (cf_questions f) (now env)),
     withCompleted
       (λ l, l ++ [mkCompleted (newId env 0) (cf_student f) (cf_quiz f)
                     (cf_score f) (cf_totalQuestions f) (cf_percentage f)
                     (cf_questions f) (now env)]) db).
Proof.
  intros Hbody Hcast Hvalid.
  unfold saveCompletedQuiz, saveCompletedQuiz_handler, CompletedQuiz_create.
  runReply. rewrite !(getProp_field body _ Hbody), Hcast.
  by rewrite Hvalid.
Qed.

(** X9.  [saveCompletedQuiz] has no "already taken" test: for a body whose
    fields the model casts and accepts it answers 201 and stores the attempt
    whatever the student already has, so the number of stored attempts of
    the student at the quiz grows by one on every call; it writes no score
    record, so the attempt does not reach the leaderboard. *)
Theorem saveCompletedQuiz_has_no_guard (cast : CompletedCast) (odm : Odm)
    (env : Env) (body : jsval) (db : Db) (f : CompletedFields) :
  ¬ nullish body →
  cast (field body "student") (field body "quiz") (field body "score")
    (field body "totalQuestions") (field body "percentage")
    (field body "questions") = Some f →
  let c := mkCompleted (newId env 0) (cf_student f) (cf_quiz f) (cf_score f)
             (cf_totalQuestions f) (cf_percentage f) (cf_questions f)
             (now env) in
  completedQuizValid odm c = true →
  let db' := snd (saveCompletedQuiz cast odm env body db) in
  saveCompletedQuiz cast odm env body db =
    (ReplySaved 201 "Quiz completed successfully" c,
     withCompleted (λ l, l ++ [c]) db)
  ∧ countAttempts (cf_student f) (cf_quiz f) db' =
      S (countAttempts (cf_student f) (cf_quiz f) db)
  ∧ scoresOf (cf_quiz f) db' = scoresOf (cf_quiz f) db.
Proof.
  intros Hbody Hcast c Hvalid db'.
  pose proof (saveCompletedQuiz_stores cast odm env body db f Hbody Hcast
                Hvalid) as Hrun.
  subst db'. rewrite Hrun. cbn [snd]. split; [done|]. split; [|done].
  rewrite countAttempts_snoc, decide_True by done. lia.
Qed.

Lemma saveCompletedQuiz_has_no_guard_witness :
  ¬ nullish Scenario.archiveBody
  ∧ ∃ c,
      saveCompletedQuiz Scenario.castCompleted Sample.odm
        (Sample.envAt 400 "s") Scenario.archiveBody Sample.db1 =
        (ReplySaved 201 "Quiz completed successfully" c,
         withCompleted (λ l, l ++ [c]) Sample.db1)
      ∧ countAttempts "alice" "quiz1" Sample.db1 = 1
      ∧ countAttempts "alice" "quiz1"
          (snd (saveCompletedQuiz Scenario.castCompleted Sample.odm
                  (Sample.envAt 400 "s") Scenario.archiveBody Sample.db1)) = 2.
Proof.
  assert (Hbody : ¬ nullish Scenario.archiveBody) by (intros [|]; done).
  split; [exact Hbody|].
  destruct (Scenario.castCompleted (field Scenario.archiveBody "student")
              (field Scenario.archiveBody "quiz")
              (field Scenario.archiveBody "score")
              (field Scenario.archiveBody "totalQuestions")
              (field Scenario.archiveBody "percentage")
              (field Scenario.archiveBody "questions")) as [f|] eqn:Hcast;
    [|by vm_compute in Hcast].
  destruct (saveCompletedQuiz_has_no_guard Scenario.castCompleted Sample.odm
              (Sample.envAt 400 "s") Scenario.archiveBody Sample.db1 f
              Hbody Hcast eq_refl) as (Hrun & Hcount & _).
  assert (Hf : cf_student f = "alice" ∧ cf_quiz f = "quiz1").
  { pose proof Hcast as H. vm_compute in H. by injection H as <-. }
  destruct Hf as [Hs Hq]. rewrite Hs, Hq in Hcount.
  eexists. split; [exact Hrun|]. split; [reflexivity|].
  rewrite Hcount. reflexivity.
Defined.

(** ** The outcomes of [submitQuiz] *)

Lemma find_snoc {A} (p : A → bool) (l : list A) (x : A) :
  List.find p l = None → p x = true → List.find p (l ++ [x]) = Some x.
Proof.
  induction l as [|y l IH]; simpl.
  - by intros _ ->.
  - destruct (p y); [done | auto].
Qed.

Lemma getIndex_error v i e : getIndex v i = inl e → e = TypeError.
Proof. destruct v; simpl; congruence. Qed.

Lemma scoreLoop_error qs answers :
  ∀ index score e, scoreLoop qs answers index score = inl e → e = TypeError.
Proof.
  induction qs as [|q qs IH]; intros index score e; [done|].
  cbn [scoreLoop]. unfold mbind, Error_bind.
  destruct (getIndex answers index) as [e'|a] eqn:Hi; cbn [bindE].
  { intros [= <-]. by eapply getIndex_error. }
  destruct (getProp a "selectedOption") as [e'|sel] eqn:Hp; cbn [bindE].
  { intros [= <-]. by eapply getProp_error. }
  apply IH.
Qed.

Lemma snapshotLoop_error qs answers :
  ∀ index e, snapshotLoop qs answers index = inl e → e = TypeError.
Proof.
  induction qs as [|q qs IH]; intros index e; [done|].
  cbn [snapshotLoop]. unfold mbind, Error_bind.
  destruct (getIndex answers index) as [e'|a] eqn:Hi; cbn [bindE].
  { intros [= <-]. by eapply getIndex_error. }
  destruct (getProp a "selectedOption") as [e'|sel] eqn:Hp; cbn [bindE].
  { intros [= <-]. by eapply getProp_error. }
  destruct (snapshotLoop qs answers (S index)) as [e'|snap] eqn:Hs;
    cbn [bindE]; [|done].
  intros [= <-]. by eapply IH.
Qed.

(** A call of [submitQuiz] ends in one of four ways. *)
Lemma submitQuiz_outcomes odm env user quizId body db :
  (∃ e, submitQuiz odm env user quizId body db = (Next e, db)
        ∧ e ≠ ErrorHandler "Failed to save score" 500)
  ∨ (∃ prev, prev ∈ completedQuizzes db
             ∧ submitQuiz odm env user quizId body db =
                 (Respond 400 false (Some "You have already taken this quiz.")
                    (P_result prev), db))
  ∨ ∃ quiz c,
      ¬ hasAttempt (user_id user) quizId db
      ∧ findQuiz quizId (quizzes db) = Some quiz
      ∧ cq_student c = user_id user ∧ cq_quiz c = quizId
      ∧ cq_totalQuestions c = length (questions quiz)
      ∧ (submitQuiz odm env user quizId body db =
           (Next (ErrorHandler "Failed to save score" 500),
            withCompleted (λ l, l ++ [c]) db)
         ∨ submitQuiz odm env user quizId body db =
             (Respond 200 true (Some "Quiz submitted") (P_result c),
              withScores (λ l, l ++ [scoreRecordOf env c])
                (withCompleted (λ l, l ++ [c]) db))).
Proof.
  destruct (getProp body "answers") as [e|answers] eqn:Ha.
  { left. exists e. unfold submitQuiz, submitQuiz_handler. run.
    rewrite Ha. split; [done|]. by rewrite (getProp_error _ _ _ Ha). }
  destruct (decide (hasAttempt (user_id user) quizId db)) as [Hhas|Hno].
  { right. left. destruct (findOne_Some _ _ _ Hhas) as (prev & Hfind & Hin & _).
    exists prev. split; [done|].
    unfold submitQuiz, submitQuiz_handler, CompletedQuiz_findOne.
    run. rewrite Ha. run. by rewrite Hfind. }
  destruct (findQuiz quizId (quizzes db)) as [quiz|] eqn:Hquiz.
  2:{ left. exists (ErrorHandler "Quiz not found" 404). split; [|done].
      unfold submitQuiz, submitQuiz_handler, CompletedQuiz_findOne,
        Quiz_findById.
      run. rewrite Ha. run. by rewrite (findOne_None _ _ _ Hno), Hquiz. }
  rewrite (submitQuiz_fresh _ _ _ _ _ _ _ _ Ha Hno Hquiz).
  destruct (scoreLoop _ _ _ _) as [e|score] eqn:Hscore.
  { left. exists e. split; [done|].
    by rewrite (scoreLoop_error _ _ _ _ _ Hscore). }
  destruct (snapshotLoop _ _ _) as [e|snapshot] eqn:Hsnap.
  { left. exists e. split; [done|].
    by rewrite (snapshotLoop_error _ _ _ _ Hsnap). }
  cbn zeta. set (c := attemptOf _ _ _ _ _ _).
  destruct (completedQuizValid odm c); [|left; by eexists].
  right. right. exists quiz, c. do 5 (split; [done|]).
  destruct (scoreValid odm _); [by right | by left].
Qed.



(** X11.  A submission that is answered with [success: true] has stored
    one attempt and one score record that agree: the response carries the
    attempt, status 200, and the score record has the quiz, the student,
    the score, the total and the percentage of the attempt. *)
Theorem submitQuiz_success_records_agree (odm : Odm) (env : Env)
    (user : User) (quizId : string) (body : jsval) (db db' : Db)
    (status : nat) (message : option string) (payload : Payload) :
  submitQuiz odm env user quizId body db =
    (Respond status true message payload, db') →
  ∃ c s,
    payload = P_result c ∧ status = 200
    ∧ completedQuizzes db' = completedQuizzes db ++ [c]
    ∧ scores db' = scores db ++ [s]
    ∧ cq_student c = user_id user ∧ cq_quiz c = quizId
    ∧ s_studentId s = user_id user ∧ s_quizId s = quizId
    ∧ s_score s = cq_score c
    ∧ s_totalQuestions s = cq_totalQuestions c
    ∧ s_percentage s = cq_percentage c.
Proof.
  intros Hrun.
  destruct (submitQuiz_outcomes odm env user quizId body db)
    as [(e & He & _) | [(prev & _ & He)
        | (quiz & c & _ & _ & Hs & Hq & _ & [He | He])]];
    rewrite He in Hrun; try done.
  injection Hrun as <- <- <- <-.
  exists c, (scoreRecordOf env c). rewrite <- Hs, <- Hq. by repeat split.
Qed.

Lemma submitQuiz_success_records_agree_witness :
  ∃ c s db',
    submitQuiz Sample.odm (Sample.envAt 100 "a") Sample.alice "quiz1"
      Sample.bodyABX Sample.db0 =
      (Respond 200 true (Some "Quiz submitted") (P_result c), db')
    ∧ scores db' = scores Sample.db0 ++ [s]
    ∧ s_score s = cq_score c ∧ s_percentage s = cq_percentage c.
Proof.
  destruct (submitQuiz Sample.odm (Sample.envAt 100 "a") Sample.alice "quiz1"
              Sample.bodyABX Sample.db0) as [out db'] eqn:Hrun.
  assert (∃ p, out = Respond 200 true (Some "Quiz submitted") p) as [p ->].
  { vm_compute in Hrun. injection Hrun as <- _. by eexists. }
  destruct (submitQuiz_success_records_agree _ _ _ _ _ _ _ _ _ _ Hrun)
    as (c & s & -> & _ & _ & Hscores & _ & _ & _ & _ & Hsc & _ & Hpc).
  exists c, s, db'. by repeat split.
Defined.

Lemma submitQuiz_finds_appended odm env user quizId body db db1 c :
  ¬ hasAttempt (user_id user) quizId db →
  cq_student c = user_id user → cq_quiz c = quizId →
  completedQuizzes db1 = completedQuizzes db ++ [c] →
  ¬ nullish body →
  submitQuiz odm env user quizId body db1 =
    (Respond 400 false (Some "You have already taken this quiz.")
       (P_result c), db1).
Proof.
  intros Hno Hs Hq Hc Hbody.
  destruct (getProp_not_nullish body "answers" Hbody) as [answers Ha].
  unfold submitQuiz, submitQuiz_handler, CompletedQuiz_findOne. run.
  rewrite Ha. run. rewrite Hc.
  rewrite (find_snoc _ _ c); [done | by apply findOne_None|].
  by rewrite !bool_decide_eq_true_2.
Qed.

(** X12.  The two ways into the archive share the guard of one of them
    only: after [saveCompletedQuiz] has stored an attempt for a student and
    a quiz, [submitQuiz] of that student to that quiz answers 400 with an
    attempt of the pair and writes nothing; when the student had no attempt
    before, the attempt returned is the archived one. *)
Theorem submitQuiz_after_saveCompletedQuiz (cast : CompletedCast)
    (odm odm' : Odm) (env env' : Env) (user : User) (quizId : string)
    (body body' : jsval) (db : Db) (f : CompletedFields) :
  ¬ nullish body →
  cast (field body "student") (field body "quiz") (field body "score")
    (field body "totalQuestions") (field body "percentage")
    (field body "questions") = Some f →
  let c := mkCompleted (newId env 0) (cf_student f) (cf_quiz f) (cf_score f)
             (cf_totalQuestions f) (cf_percentage f) (cf_questions f)
             (now env) in
  completedQuizValid odm c = true →
  cf_student f = user_id user → cf_quiz f = quizId →
  ¬ nullish body' →
  let db1 := snd (saveCompletedQuiz cast odm env body db) in
  ∃ prev,
    submitQuiz odm' env' user quizId body' db1 =
      (Respond 400 false (Some "You have already taken this quiz.")
         (P_result prev), db1)
    ∧ prev ∈ completedQuizzes db1
    ∧ cq_student prev = user_id user ∧ cq_quiz prev = quizId
    ∧ (¬ hasAttempt (user_id user) quizId db → prev = c).
Proof.
  intros Hbody Hcast c Hvalid Hs Hq Hbody' db1.
  assert (Hdb1 : completedQuizzes db1 = completedQuizzes db ++ [c]).
  { subst db1.
    by rewrite (saveCompletedQuiz_stores cast odm env body db f Hbody Hcast
                  Hvalid). }
  destruct (decide (hasAttempt (user_id user) quizId db)) as [Hhas|Hno].
  - assert (Hhas1 : hasAttempt (user_id user) quizId db1).
    { destruct Hhas as (p & Hin & Hp). exists p. split; [|done].
      rewrite Hdb1. apply elem_of_app. by left. }
    destruct (findOne_Some _ _ _ Hhas1) as (prev & Hfind & Hin & Hps & Hpq).
    destruct (getProp_not_nullish body' "answers" Hbody') as [answers Ha].
    exists prev. split; [|done].
    unfold submitQuiz, submitQuiz_handler, CompletedQuiz_findOne. run.
    rewrite Ha. run. by rewrite Hfind.
  - exists c. split.
    + by apply (submitQuiz_finds_appended odm' env' user quizId body' db).
    + split; [rewrite Hdb1; apply elem_of_app; right; left|]. done.
Qed.

Lemma submitQuiz_after_saveCompletedQuiz_witness :
  ¬ nullish Scenario.archiveBody ∧ ¬ nullish Sample.bodyABC
  ∧ ¬ hasAttempt "alice" "quiz1" Sample.db0
  ∧ ∃ c db1,
      saveCompletedQuiz Scenario.castCompleted Sample.odm
        (Sample.envAt 400 "s") Scenario.archiveBody Sample.db0 =
        (ReplySaved 201 "Quiz completed successfully" c, db1)
      ∧ submitQuiz Sample.odm (Sample.envAt 500 "t") Sample.alice "quiz1"
          Sample.bodyABC db1 =
          (Respond 400 false (Some "You have already taken this quiz.")
             (P_result c), db1).
Proof.
  assert (Hbody : ¬ nullish Scenario.archiveBody) by (intros [|]; done).
  assert (Hbody' : ¬ nullish Sample.bodyABC) by (intros [|]; done).
  assert (Hno : ¬ hasAttempt (user_id Sample.alice) "quiz1" Sample.db0).
  { intros (p & Hin & _). simpl in Hin. by apply elem_of_nil in Hin. }
  do 3 (split; [assumption|]).
  destruct (Scenario.castCompleted (field Scenario.archiveBody "student")
              (field Scenario.archiveBody "quiz")
              (field Scenario.archiveBody "score")
              (field Scenario.archiveBody "totalQuestions")
              (field Scenario.archiveBody "percentage")
              (field Scenario.archiveBody "questions")) as [f|] eqn:Hcast;
    [|by vm_compute in Hcast].
  assert (Hf : cf_student f = "alice" ∧ cf_quiz f = "quiz1").
  { pose proof Hcast as H. vm_compute in H. by injection H as <-. }
  destruct Hf as [Hs Hq].
  destruct (submitQuiz_after_saveCompletedQuiz Scenario.castCompleted
              Sample.odm Sample.odm (Sample.envAt 400 "s")
              (Sample.envAt 500 "t") Sample.alice "quiz1"
              Scenario.archiveBody Sample.bodyABC Sample.db0 f
              Hbody Hcast eq_refl Hs Hq Hbody')
    as (prev & Hrun & _ & _ & _ & Hprev).
  rewrite (Hprev Hno) in Hrun.
  eexists. eexists. split; [|exact Hrun].
  rewrite (saveCompletedQuiz_stores Scenario.castCompleted Sample.odm
             (Sample.envAt 400 "s") Scenario.archiveBody Sample.db0 f
             Hbody Hcast eq_refl).
  reflexivity.
Defined.

(** ** What an attempt records *)

Lemma loops_agree qs answers :
  ∀ index score n snapshot,
    scoreLoop qs answers index score = inr n →
    snapshotLoop qs answers index = inr snapshot →
    n = score + length (filter answeredCorrectly snapshot)
    ∧ map aq_question snapshot = map q_question qs
    ∧ map aq_options snapshot = map q_options qs
    ∧ map aq_correctAnswer snapshot = map q_correctAnswer qs.
Proof.
  induction qs as [|q qs IH]; intros index score n snapshot.
  - simpl. intros [= <-] [= <-]. simpl. by rewrite Nat.add_0_r.
  - cbn [scoreLoop snapshotLoop]. unfold mbind, Error_bind.
    destruct (getIndex answers index) as [e|a]; [done|]. cbn [bindE].
    destruct (getProp a "selectedOption") as [e|sel]; [done|]. cbn [bindE].
    intros Hscore.
    destruct (snapshotLoop qs answers (S index)) as [e|rest] eqn:Hrest;
      [done|].
    cbn [bindE]. unfold mret, Error_ret. intros [= <-].
    destruct (IH _ _ _ _ Hscore Hrest) as (-> & Hq & Ho & Hc).
    cbn [map aq_question aq_options aq_correctAnswer].
    rewrite Hq, Ho, Hc. split; [|done].
    destruct (strictEqStr (q_correctAnswer q) sel) eqn:Heq.
    + rewrite filter_cons_True by done. simpl. lia.
    + rewrite filter_cons_False; [done|].
      unfold answeredCorrectly. simpl. by rewrite Heq.
Qed.

(** X13.  The attempt a call of [submitQuiz] stores is a faithful snapshot
    of the quiz as it was graded: question by question it carries the text,
    the options and the correct answer of the quiz, in order, its
    [totalQuestions] is the length of the snapshot, and its score is the
    number of snapshotted questions whose selected option is strictly equal
    to the correct answer, so the score can be recomputed from the stored
    document alone. *)
Theorem submitQuiz_snapshot_mirrors_quiz (odm : Odm) (env : Env) (user : User)
    (quizId : string) (body : jsval) (db : Db) (c : CompletedQuiz) :
  completedQuizzes (snd (submitQuiz odm env user quizId body db)) =
    completedQuizzes db ++ [c] →
  ∃ quiz,
    findQuiz quizId (quizzes db) = Some quiz
    ∧ map aq_question (cq_questions c) = map q_question (questions quiz)
    ∧ map aq_options (cq_questions c) = map q_options (questions quiz)
    ∧ map aq_correctAnswer (cq_questions c) =
        map q_correctAnswer (questions quiz)
    ∧ length (cq_questions c) = cq_totalQuestions c
    ∧ cq_score c = length (filter answeredCorrectly (cq_questions c)).
Proof.
  intros Hc.
  destruct (submitQuiz_created _ _ _ _ _ _ _ Hc)
    as (answers & quiz & score & snapshot & _ & _ & Hquiz & Hscore & Hsnap
        & -> & _).
  destruct (loops_agree _ _ _ _ _ _ Hscore Hsnap) as (Hn & Hq & Ho & Hca).
  exists quiz. cbn [attemptOf cq_questions cq_totalQuestions cq_score].
  do 4 (split; [done|]). split; [|done].
  rewrite <- (length_map aq_question), Hq. apply length_map.
Qed.

Lemma submitQuiz_snapshot_mirrors_quiz_witness :
  ∃ c,
    completedQuizzes
      (snd (submitQuiz Sample.odm (Sample.envAt 100 "a") Sample.alice
              "quiz1" Sample.bodyABX Sample.db0)) =
      completedQuizzes Sample.db0 ++ [c]
    ∧ map aq_correctAnswer (cq_questions c) = ["A"; "B"; "C"]
    ∧ cq_score c = length (filter answeredCorrectly (cq_questions c)).
Proof.
  eexists. split; [vm_compute; reflexivity|].
  match goal with
  | |- context [cq_score ?c] =>
      destruct (submitQuiz_snapshot_mirrors_quiz Sample.odm
                  (Sample.envAt 100 "a") Sample.alice "quiz1" Sample.bodyABX
                  Sample.db0 c)
        as (quiz & Hquiz & _ & _ & Hca & _ & Hscore)
  end; [vm_compute; reflexivity|].
  split; [reflexivity | exact Hscore].
Defined.

(** ** Which answers are read *)

Lemma loops_read_question_indices qs a1 a2 :
  ∀ index,
    (∀ i, index ≤ i < index + length qs → getIndex a1 i = getIndex a2 i) →
    (∀ score, scoreLoop qs a1 index score = scoreLoop qs a2 index score)
    ∧ snapshotLoop qs a1 index = snapshotLoop qs a2 index.
Proof.
  induction qs as [|q qs IH]; intros index Hsame; [done|].
  assert (Hi : getIndex a1 index = getIndex a2 index)
    by (apply Hsame; simpl; lia).
  destruct (IH (S index)) as [Hscore Hsnap].
  { intros i Hi'. apply Hsame. simpl. lia. }
  cbn [scoreLoop snapshotLoop]. unfold mbind, Error_bind. rewrite Hi.
  destruct (getIndex a2 index) as [e|a]; [done|]. cbn [bindE].
  destruct (getProp a "selectedOption") as [e|sel]; [done|]. cbn [bindE].
  split; [intros score; apply Hscore | by rewrite Hsnap].
Qed.

(** X14.  [submitQuiz] reads [answers] at the indices of the questions and
    nowhere else: two bodies whose answers agree at every index below the
    number of questions of the quiz are answered alike and leave the same
    database, so entries past the last question are ignored. *)
Theorem submitQuiz_reads_question_indices_only (odm : Odm) (env : Env)
    (user : User) (quizId : string) (body1 body2 : jsval) (db : Db)
    (answers1 answers2 : jsval) :
  getProp body1 "answers" = inr answers1 →
  getProp body2 "answers" = inr answers2 →
  (∀ quiz i, findQuiz quizId (quizzes db) = Some quiz →
             i < length (questions quiz) →
             getIndex answers1 i = getIndex answers2 i) →
  submitQuiz odm env user quizId body1 db =
  submitQuiz odm env user quizId body2 db.
Proof.
  intros Ha1 Ha2 Hsame.
  destruct (decide (hasAttempt (user_id user) quizId db)) as [Hhas|Hno].
  { destruct (findOne_Some _ _ _ Hhas) as (prev & Hfind & _).
    unfold submitQuiz, submitQuiz_handler, CompletedQuiz_findOne. run.
    rewrite Ha1, Ha2. run. by rewrite Hfind. }
  destruct (findQuiz quizId (quizzes db)) as [quiz|] eqn:Hquiz.
  - rewrite (submitQuiz_fresh _ _ _ _ _ _ _ _ Ha1 Hno Hquiz),
      (submitQuiz_fresh _ _ _ _ _ _ _ _ Ha2 Hno Hquiz).
    destruct (loops_read_question_indices (questions quiz) answers1 answers2 0)
      as [Hscore Hsnap].
    { intros i Hi. apply (Hsame quiz); [done | lia]. }
    by rewrite Hscore, Hsnap.
  - unfold submitQuiz, submitQuiz_handler, CompletedQuiz_findOne,
      Quiz_findById.
    run. rewrite Ha1, Ha2. run. by rewrite (findOne_None _ _ _ Hno), Hquiz.
Qed.

Lemma submitQuiz_reads_question_indices_only_witness :
  let longer :=
    VObj [("answers", VArr (Sample.answersABX ++ [Sample.selected "Z"; VNull]))]
  in
  getProp longer "answers" =
    inr (VArr (Sample.answersABX ++ [Sample.selected "Z"; VNull]))
  ∧ getProp Sample.bodyABX "answers" = inr (VArr Sample.answersABX)
  ∧ submitQuiz Sample.odm (Sample.envAt 100 "a") Sample.alice "quiz1" longer
      Sample.db0 =
    submitQuiz Sample.odm (Sample.envAt 100 "a") Sample.alice "quiz1"
      Sample.bodyABX Sample.db0.
Proof.
  intros longer. split; [reflexivity|]. split; [reflexivity|].
  apply (submitQuiz_reads_question_indices_only Sample.odm
           (Sample.envAt 100 "a") Sample.alice "quiz1" longer Sample.bodyABX
           Sample.db0 (VArr (Sample.answersABX ++ [Sample.selected "Z"; VNull]))
           (VArr Sample.answersABX) eq_refl eq_refl).
  intros quiz i Hquiz Hi. vm_compute in Hquiz. injection Hquiz as <-.
  simpl in Hi. destruct i as [|[|[|i]]]; [reflexivity .. | lia].
Defined.

(** ** The range of the percentage *)

Lemma Qc_of_nat_le n m : n ≤ m ↔ (Qc_of_nat n ≤ Qc_of_nat m)%Qc.
Proof. unfold Qc_of_nat. rewrite <- Z2Qc_inj_le. lia. Qed.

Lemma Qc_of_nat_inj n m : Qc_of_nat n = Qc_of_nat m ↔ n = m.
Proof. unfold Qc_of_nat. rewrite Z2Qc_inj_iff. lia. Qed.

Lemma percentage_times_total score total :
  total ≠ 0 →
  (Qc_of_nat 100 * Qc_of_nat score / Qc_of_nat total * Qc_of_nat total
   = Qc_of_nat (100 * score))%Qc.
Proof.
  intros Ht. rewrite Qc_of_nat_mul. field. by rewrite Qc_of_nat_eq_0.
Qed.

(** X15.  For a quiz with at least one question, the percentage of every
    attempt [submitQuiz] stores is a number between 0 and 100; it is 100
    exactly when every question was answered correctly and 0 exactly when
    none was. *)
Theorem submitQuiz_percentage_range (odm : Odm) (env : Env) (user : User)
    (quizId : string) (body : jsval) (db : Db) (c : CompletedQuiz) :
  completedQuizzes (snd (submitQuiz odm env user quizId body db)) =
    completedQuizzes db ++ [c] →
  cq_totalQuestions c ≠ 0 →
  ∃ p : Qc,
    cq_percentage c = Fin p
    ∧ (0 ≤ p)%Qc ∧ (p ≤ Qc_of_nat 100)%Qc
    ∧ (p = Qc_of_nat 100 ↔ cq_score c = cq_totalQuestions c)
    ∧ (p = 0%Qc ↔ cq_score c = 0).
Proof.
  intros Hc Ht.
  destruct (submitQuiz_created _ _ _ _ _ _ _ Hc)
    as (answers & quiz & score & snapshot & _ & _ & _ & Hscore & _ & -> & _).
  apply scoreLoop_bounds in Hscore.
  cbn [attemptOf cq_score cq_totalQuestions cq_percentage] in *.
  set (total := length (questions quiz)) in *.
  rewrite percentage_formula, percentageOf_pos by done.
  eexists. split; [reflexivity|].
  set (p := (Qc_of_nat 100 * Qc_of_nat score / Qc_of_nat total)%Qc).
  pose proof (percentage_times_total score total Ht) as Hp. fold p in Hp.
  assert (Hpos : (0 < Qc_of_nat total)%Qc) by by apply Qc_of_nat_pos.
  assert (H0 : Qc_of_nat 0 = 0%Qc) by by apply Qc_of_nat_eq_0.
  split; [|split; [|split]].
  - apply (Qcmult_le_mono_pos_r _ _ _ Hpos).
    rewrite Hp, Qcmult_0_l, <- H0. apply Qc_of_nat_le. lia.
  - apply (Qcmult_le_mono_pos_r _ _ _ Hpos).
    rewrite Hp, <- Qc_of_nat_mul. apply Qc_of_nat_le. lia.
  - split.
    + intros Heq. rewrite Heq, <- Qc_of_nat_mul in Hp.
      apply Qc_of_nat_inj in Hp. lia.
    + intros ->. subst p. field. by rewrite Qc_of_nat_eq_0.
  - split.
    + intros Heq. rewrite Heq, Qcmult_0_l, <- H0 in Hp.
      apply Qc_of_nat_inj in Hp. lia.
    + intros ->. subst p. rewrite H0. field. by rewrite Qc_of_nat_eq_0.
Qed.

Lemma submitQuiz_percentage_range_witness :
  ∃ c,
    completedQuizzes
      (snd (submitQuiz Sample.odm (Sample.envAt 150 "c") Sample.bob "quiz1"
              Sample.bodyABC Sample.db0)) =
      completedQuizzes Sample.db0 ++ [c]
    ∧ cq_totalQuestions c ≠ 0
    ∧ cq_score c = cq_totalQuestions c
    ∧ ∃ p, cq_percentage c = Fin p ∧ p = Qc_of_nat 100.
Proof.
  eexists. split; [vm_compute; reflexivity|].
  split; [by vm_compute|]. split; [reflexivity|].
  match goal with
  | |- context [cq_percentage ?c] =>
      destruct (submitQuiz_percentage_range Sample.odm (Sample.envAt 150 "c")
                  Sample.bob "quiz1" Sample.bodyABC Sample.db0 c)
        as (p & Hp & _ & _ & Hfull & _)
  end; [vm_compute; reflexivity | by vm_compute |].
  exists p. split; [exact Hp|]. by apply Hfull.
Defined.

(** ** A quiz left without questions *)

Lemma deleteQuestion_run quizId questionId db quiz :
  findQuiz quizId (quizzes db) = Some quiz →
  deleteQuestion quizId questionId db =
    (Respond 200 true (Some "Question deleted successfully!") NoPayload,
     withQuizzes
       (replaceFirst
          (setQuestions quiz
             (filter (λ q, q_id q ≠ questionId) (questions quiz)))) db).
Proof.
  intros Hquiz. unfold deleteQuestion, deleteQuestion_handler, Quiz_findById,
    Quiz_save.
  run. by rewrite Hquiz.
Qed.

Lemma deleteQuestion_found quizId questionId db quiz :
  findQuiz quizId (quizzes db) = Some quiz →
  findQuiz quizId (quizzes (snd (deleteQuestion quizId questionId db))) =
    Some (setQuestions quiz
            (filter (λ q, q_id q ≠ questionId) (questions quiz))).
Proof.
  intros Hquiz. rewrite (deleteQuestion_run _ _ _ _ Hquiz).
  cbn [snd quizzes withQuizzes].
  destruct (findQuiz_Some _ _ _ Hquiz) as [_ Hid].
  set (quiz' := setQuestions quiz _).
  assert (Hid' : quiz_id quiz' = quizId) by done.
  rewrite <- Hid'. apply findQuiz_replaceFirst. rewrite Hid'. eauto.
Qed.

Lemma attemptOf_empty env user quizId :
  attemptOf env user quizId 0 0 [] = emptyAttemptOf env user quizId.
Proof.
  unfold attemptOf, emptyAttemptOf. by rewrite percentage_formula.
Qed.

(** X16.  [deleteQuestion] has no guard against emptying a quiz, and
    [submitQuiz] none against an empty quiz: once the only question of a
    quiz is deleted, a first submission to it never throws, whatever the
    body holds under [answers]; it offers the models an attempt with score
    0, 0 questions and a percentage of [NaN], and is answered by what the
    models do with it. *)
Theorem submitQuiz_on_emptied_quiz (odm : Odm) (env : Env) (user : User)
    (quizId : string) (body : jsval) (db : Db) (quiz : Quiz) (q : Question) :
  findQuiz quizId (quizzes db) = Some quiz →
  questions quiz = [q] →
  ¬ hasAttempt (user_id user) quizId db →
  ¬ nullish body →
  let db1 := snd (deleteQuestion quizId (q_id q) db) in
  let c := emptyAttemptOf env user quizId in
  fst (deleteQuestion quizId (q_id q) db) =
    Respond 200 true (Some "Question deleted successfully!") NoPayload
  ∧ (∃ emptied, findQuiz quizId (quizzes db1) = Some emptied
                ∧ questions emptied = [])
  ∧ submitQuiz odm env user quizId body db1 =
      if completedQuizValid odm c then
        if scoreValid odm (scoreRecordOf env c) then
          (Respond 200 true (Some "Quiz submitted") (P_result c),
           withScores (λ l, l ++ [scoreRecordOf env c])
             (withCompleted (λ l, l ++ [c]) db1))
        else
          (Next (ErrorHandler "Failed to save score" 500),
           withCompleted (λ l, l ++ [c]) db1)
      else (Next ModelError, db1).
Proof.
  intros Hquiz Hqs Hno Hbody db1 c.
  pose proof (deleteQuestion_found quizId (q_id q) db quiz Hquiz) as Hfound.
  fold db1 in Hfound. rewrite Hqs in Hfound.
  rewrite filter_cons_False in Hfound by (intros H; by apply H).
  change (filter _ []) with (@nil Question) in Hfound.
  split; [by rewrite (deleteQuestion_run _ _ _ _ Hquiz)|].
  split; [eexists; split; [exact Hfound | done]|].
  destruct (getProp_not_nullish body "answers" Hbody) as [answers Ha].
  assert (Hno1 : ¬ hasAttempt (user_id user) quizId db1).
  { intros (p & Hin & Hp). apply Hno. exists p. split; [|done].
    subst db1. by rewrite (deleteQuestion_run _ _ _ _ Hquiz) in Hin. }
  rewrite (submitQuiz_fresh _ _ _ _ _ _ _ _ Ha Hno1 Hfound).
  cbn [setQuestions questions scoreLoop snapshotLoop length].
  cbn zeta. by rewrite attemptOf_empty.
Qed.

Lemma submitQuiz_on_emptied_quiz_witness :
  findQuiz "quiz0" (quizzes Sample.db0) = Some Sample.quizOld
  ∧ questions Sample.quizOld = [mkQuestion "q0" "Ready?" ["yes"; "no"] "yes"]
  ∧ ¬ hasAttempt (user_id Sample.alice) "quiz0" Sample.db0
  ∧ ¬ nullish (VObj [])
  ∧ submitQuiz Sample.odm (Sample.envAt 100 "a") Sample.alice "quiz0"
      (VObj []) (snd (deleteQuestion "quiz0" "q0" Sample.db0)) =
      (Respond 200 true (Some "Quiz submitted")
         (P_result (emptyAttemptOf (Sample.envAt 100 "a") Sample.alice
                      "quiz0")),
       withScores
         (λ l, l ++ [scoreRecordOf (Sample.envAt 100 "a")
                       (emptyAttemptOf (Sample.envAt 100 "a") Sample.alice
                          "quiz0")])
         (withCompleted
            (λ l, l ++ [emptyAttemptOf (Sample.envAt 100 "a") Sample.alice
                          "quiz0"])
            (snd (deleteQuestion "quiz0" "q0" Sample.db0)))).
Proof.
  assert (Hno : ¬ hasAttempt (user_id Sample.alice) "quiz0" Sample.db0).
  { intros (p & Hin & _). simpl in Hin. by apply elem_of_nil in Hin. }
  assert (Hbody : ¬ nullish (VObj [])) by (intros [|]; done).
  split; [reflexivity|]. split; [reflexivity|]. split; [exact Hno|].
  split; [exact Hbody|].
  destruct (submitQuiz_on_emptied_quiz Sample.odm (Sample.envAt 100 "a")
              Sample.alice "quiz0" (VObj []) Sample.db0 Sample.quizOld
              (mkQuestion "q0" "Ready?" ["yes"; "no"] "yes")
              eq_refl eq_refl Hno Hbody) as (_ & _ & Hrun).
  exact Hrun.
Defined.

(** ** Deleting a question twice *)

Lemma filter_filter_same {A} (P : A → Prop) `{∀ x, Decision (P x)}
    (l : list A) :
  filter P (filter P l) = filter P l.
Proof.
  apply filter_all. intros x Hx. by apply list_elem_of_filter in Hx as [? _].
Qed.

(** X17.  [deleteQuestion] is idempotent: a second call with the same quiz
    and question identifiers is answered like the first and leaves the
    database as the first call left it. *)
Theorem deleteQuestion_idempotent (quizId questionId : string) (db : Db) :
  let db1 := snd (deleteQuestion quizId questionId db) in
  deleteQuestion quizId questionId db1 =
    (fst (deleteQuestion quizId questionId db), db1).
Proof.
  intros db1. destruct (findQuiz quizId (quizzes db)) as [quiz|] eqn:Hquiz.
  - pose proof (deleteQuestion_found quizId questionId db quiz Hquiz) as Hf.
    fold db1 in Hf.
    rewrite (deleteQuestion_run _ _ _ _ Hf).
    subst db1. rewrite (deleteQuestion_run _ _ _ _ Hquiz) in Hf |- *.
    cbn [fst snd] in *. f_equal.
    set (quiz' := setQuestions quiz _) in *.
    assert (setQuestions quiz'
              (filter (λ q, q_id q ≠ questionId) (questions quiz')) = quiz')
      as ->.
    { subst quiz'. unfold setQuestions.
      cbn [questions quiz_id title description duration createdBy createdAt].
      by rewrite filter_filter_same. }
    unfold withQuizzes at 1. cbn [quizzes completedQuizzes scores users
                                    withQuizzes] in *.
    rewrite (replaceFirst_same quiz'); [done|].
    destruct (findQuiz_Some _ _ _ Hquiz) as [_ Hid].
    assert (Hid' : quiz_id quiz' = quizId) by done.
    by rewrite Hid'.
  - subst db1.
    assert (Hrun : deleteQuestion quizId questionId db =
                   (Next (ErrorHandler "Quiz not found!" 404), db)).
    { unfold deleteQuestion, deleteQuestion_handler, Quiz_findById. run.
      by rewrite Hquiz. }
    rewrite Hrun. cbn [fst snd]. exact Hrun.
Qed.

(** ** A submission seen through the reading handlers *)

Lemma populateStudent_users db db' s :
  users db' = users db → populateStudent db' s = populateStudent db s.
Proof. intros H. unfold populateStudent. by rewrite H. Qed.

Lemma getQuizLeaderboard_run quizId db :
  quizId ≠ "" →
  getQuizLeaderboard quizId db =
    (Respond 200 true None
       (P_leaderboard
          (map (populateStudent db)
             (merge_sort highestScoreFirst (scoresOf quizId db)))), db).
Proof.
  intros Hid. unfold getQuizLeaderboard, getQuizLeaderboard_handler,
    Score_findSortedPopulated.
  rewrite decide_False by done. by run.
Qed.

(** X18.  A successful submission shows on the leaderboard of its quiz and
    on no other: after it, the leaderboard of the quiz holds the score
    records it held before and the new one, carrying the student, the score
    and the percentage of the attempt, and the leaderboard of every other
    quiz is answered as before. *)
Theorem getQuizLeaderboard_after_submitQuiz (odm : Odm) (env : Env)
    (user : User) (quizId : string) (body : jsval) (db db' : Db)
    (status : nat) (message : option string) (payload : Payload) :
  submitQuiz odm env user quizId body db =
    (Respond status true message payload, db') →
  quizId ≠ "" →
  ∃ c before after,
    payload = P_result c
    ∧ getQuizLeaderboard quizId db =
        (Respond 200 true None (P_leaderboard before), db)
    ∧ getQuizLeaderboard quizId db' =
        (Respond 200 true None (P_leaderboard after), db')
    ∧ map le_score after ≡ₚ
        map le_score before ++
          [mkScore (newId env 1) quizId (user_id user) (cq_score c)
             (cq_totalQuestions c) (cq_percentage c)]
    ∧ length after = S (length before)
    ∧ ∀ other, other ≠ "" → other ≠ quizId →
        fst (getQuizLeaderboard other db') = fst (getQuizLeaderboard other db).
Proof.
  intros Hrun Hid.
  destruct (submitQuiz_outcomes odm env user quizId body db)
    as [(e & He & _) | [(prev & _ & He)
        | (quiz & c & _ & _ & Hs & Hq & _ & [He | He])]];
    rewrite He in Hrun; try done.
  injection Hrun as <- <- <- <-.
  set (s := scoreRecordOf env c).
  set (db' := withScores _ _).
  assert (Hsq : s_quizId s = quizId) by done.
  assert (Hscores : ∀ id, scoresOf id db' =
            scoresOf id db ++ (if decide (quizId = id) then [s] else [])).
  { intros id. unfold scoresOf. subst db'.
    cbn [scores withScores withCompleted]. rewrite filter_app. f_equal.
    destruct (decide (quizId = id)) as [<-|Hne].
    - by rewrite filter_cons_True.
    - rewrite filter_cons_False; [done|]. congruence. }
  assert (Hpop : ∀ l, map (populateStudent db') l = map (populateStudent db) l).
  { intros l. apply map_ext. intros x. by apply populateStudent_users. }
  exists c. eexists. eexists. split; [done|].
  split; [by apply getQuizLeaderboard_run|].
  split; [by apply getQuizLeaderboard_run|].
  rewrite !map_le_score_populate, !length_map.
  assert (Hperm : merge_sort highestScoreFirst (scoresOf quizId db') ≡ₚ
                  merge_sort highestScoreFirst (scoresOf quizId db) ++ [s]).
  { rewrite !merge_sort_Permutation, Hscores. by rewrite decide_True. }
  split; [|split].
  - rewrite Hperm. subst s. unfold scoreRecordOf. by rewrite Hs, Hq.
  - rewrite Hperm, length_app. simpl. lia.
  - intros other Ho Hne. rewrite !getQuizLeaderboard_run by done. cbn [fst].
    rewrite Hpop, Hscores, decide_False by done. by rewrite app_nil_r.
Qed.

Lemma getQuizLeaderboard_after_submitQuiz_witness :
  "quiz1" ≠ ""
  ∧ ∃ c db' before after,
      submitQuiz Sample.odm (Sample.envAt 150 "c") Sample.bob "quiz1"
        Sample.bodyABC Sample.db2 =
        (Respond 200 true (Some "Quiz submitted") (P_result c), db')
      ∧ getQuizLeaderboard "quiz1" Sample.db2 =
          (Respond 200 true None (P_leaderboard before), Sample.db2)
      ∧ getQuizLeaderboard "quiz1" db' =
          (Respond 200 true None (P_leaderboard after), db')
      ∧ length before = 1 ∧ length after = 2.
Proof.
  assert (Hid : "quiz1" ≠ "") by done.
  split; [exact Hid|].
  destruct (submitQuiz Sample.odm (Sample.envAt 150 "c") Sample.bob "quiz1"
              Sample.bodyABC Sample.db2) as [out db'] eqn:Hrun.
  assert (∃ p, out = Respond 200 true (Some "Quiz submitted") p) as [p ->].
  { vm_compute in Hrun. injection Hrun as <- _. by eexists. }
  destruct (getQuizLeaderboard_after_submitQuiz _ _ _ _ _ _ _ _ _ _ Hrun Hid)
    as (c & before & after & -> & Hb & Ha & _ & Hlen & _).
  exists c, db', before, after. do 3 (split; [done|]).
  assert (Hone : length before = 1).
  { vm_compute in Hb. injection Hb as <-. reflexivity. }
  split; [exact Hone|]. by rewrite Hlen, Hone.
Defined.

Lemma getCompletedQuizzes_run studentId db :
  attemptsOf studentId db ≠ [] →
  getCompletedQuizzes studentId db =
    (Respond 200 true None
       (P_completedQuizzes
          (omap (resolvedSummary db)
             (merge_sort newestCompletedFirst (attemptsOf studentId db)))),
     db).
Proof.
  intros Hsome. unfold getCompletedQuizzes, getCompletedQuizzes_handler,
    CompletedQuiz_findPopulatedSorted.
  run. rewrite length_map, decide_False, history_omap; [done|].
  intros Hlen. apply nil_length_inv in Hlen. apply Hsome, Permutation_nil.
  rewrite <- Hlen. apply merge_sort_Permutation.
Qed.

(** X19.  An attempt stored by [submitQuiz] shows in the history of the
    student at once: [getCompletedQuizzes] of the student answers 200, never
    404, and the history holds the summary of the attempt with the quiz it
    was graded against. *)
Theorem getCompletedQuizzes_after_submitQuiz (odm : Odm) (env : Env)
    (user : User) (quizId : string) (body : jsval) (db : Db)
    (c : CompletedQuiz) :
  let db1 := snd (submitQuiz odm env user quizId body db) in
  completedQuizzes db1 = completedQuizzes db ++ [c] →
  ∃ quiz history,
    findQuiz quizId (quizzes db) = Some quiz
    ∧ getCompletedQuizzes (user_id user) db1 =
        (Respond 200 true None (P_completedQuizzes history), db1)
    ∧ summaryOf c quiz ∈ history.
Proof.
  intros db1 Hc.
  destruct (submitQuiz_created _ _ _ _ _ _ _ Hc)
    as (answers & quiz & score & snapshot & _ & _ & Hquiz & _ & _ & Heq & _).
  assert (Hs : cq_student c = user_id user) by by rewrite Heq.
  assert (Hq : cq_quiz c = quizId) by by rewrite Heq.
  assert (Hquizzes : quizzes db1 = quizzes db).
  { subst db1.
    by destruct (submitQuiz_shape odm env user quizId body db)
      as [-> | (c' & [-> | ->])]. }
  assert (Hin : c ∈ attemptsOf (user_id user) db1).
  { unfold attemptsOf. apply list_elem_of_filter. split; [done|].
    fold db1 in Hc. rewrite Hc. apply elem_of_app. right. left. }
  exists quiz. eexists. split; [done|]. split.
  - apply getCompletedQuizzes_run. intros Hnil. rewrite Hnil in Hin.
    by apply elem_of_nil in Hin.
  - apply list_elem_of_omap. exists c. split.
    + by rewrite merge_sort_Permutation.
    + unfold resolvedSummary. by rewrite Hquizzes, Hq, Hquiz.
Qed.

Lemma getCompletedQuizzes_after_submitQuiz_witness :
  ∃ c,
    completedQuizzes
      (snd (submitQuiz Sample.odmScoreDown (Sample.envAt 100 "a")
              Sample.alice "quiz1" Sample.bodyABX Sample.db0)) =
      completedQuizzes Sample.db0 ++ [c]
    ∧ ∃ history,
        fst (getCompletedQuizzes "alice"
               (snd (submitQuiz Sample.odmScoreDown (Sample.envAt 100 "a")
                       Sample.alice "quiz1" Sample.bodyABX Sample.db0))) =
          Respond 200 true None (P_completedQuizzes history)
        ∧ summaryOf c Sample.quizABC ∈ history.
Proof.
  eexists. split; [vm_compute; reflexivity|].
  match goal with
  | |- context [summaryOf ?c _] =>
      destruct (getCompletedQuizzes_after_submitQuiz Sample.odmScoreDown
                  (Sample.envAt 100 "a") Sample.alice "quiz1" Sample.bodyABX
                  Sample.db0 c)
        as (quiz & history & Hquiz & Hrun & Hin)
  end; [vm_compute; reflexivity|].
  vm_compute in Hquiz. injection Hquiz as <-.
  exists history. split; [|exact Hin].
  cbn [user_id Sample.alice] in Hrun. by rewrite Hrun.
Defined.

(** ** What a student is listed *)

(** X20.  A requester who is not an admin is listed stored quizzes only,
    and each of them is either a quiz that no stored quiz is newer than or
    a quiz the requester has a completed attempt of: no other quiz is ever
    disclosed. *)
Theorem getAllQuizzes_lists_latest_and_own_only (user : User) (db : Db) :
  role user ≠ "admin" →
  ∃ listed,
    getAllQuizzes user db = (Respond 200 true None (P_quizzes listed), db)
    ∧ ∀ q, q ∈ listed →
        q ∈ quizzes db
        ∧ ((∀ q', q' ∈ quizzes db → (createdAt q' ≤ createdAt q)%N)
           ∨ hasAttempt (user_id user) (quiz_id q) db).
Proof.
  intros Hrole. unfold getAllQuizzes, getAllQuizzes_handler, Quiz_findLatest,
    CompletedQuiz_findPopulated.
  rewrite decide_False by done. run.
  eexists. split; [reflexivity|]. rewrite filterBoolean_populated.
  pose proof (latest_is_newest (quizzes db)) as Hlatest.
  intros q [Hq | Hq]%elem_of_app.
  - destruct (head _) as [latest|]; [|by apply elem_of_nil in Hq].
    apply list_elem_of_singleton in Hq as ->.
    destruct Hlatest as [Hin Hmax]. split; [done | by left].
  - apply list_elem_of_omap in Hq as (c & Hc & Hfind).
    destruct (findQuiz_Some _ _ _ Hfind) as [Hin Hid].
    split; [done|]. right.
    apply list_elem_of_filter in Hc as [Hs Hc]. by exists c.
Qed.

Lemma getAllQuizzes_lists_latest_and_own_only_witness :
  role Sample.bob ≠ "admin"
  ∧ ∃ listed,
      getAllQuizzes Sample.bob Sample.db2 =
        (Respond 200 true None (P_quizzes listed), Sample.db2)
      ∧ map quiz_id listed = ["quiz1"]
      ∧ ∀ q, q ∈ listed → q ∈ quizzes Sample.db2.
Proof.
  assert (Hrole : role Sample.bob ≠ "admin") by done.
  split; [exact Hrole|].
  destruct (getAllQuizzes_lists_latest_and_own_only Sample.bob Sample.db2
              Hrole) as (listed & Hrun & Hall).
  exists listed. split; [exact Hrun|]. split.
  - vm_compute in Hrun. injection Hrun as <-. reflexivity.
  - intros q Hq. by destruct (Hall q Hq).
Defined.

(** ** What a stored quiz went through *)

(** X21.  A 201 of [addQuiz] is given to well-formed bodies only: the title
    and the duration are truthy, the questions are a non-empty array, and
    every entry of it is an object with a truthy question text, a truthy
    correctAnswer and a non-empty array of options. *)
Theorem addQuiz_accepts_well_formed_only (odm : Odm) (env : Env) (user : User)
    (body : jsval) (db db' : Db) (status : nat) (success : bool)
    (message : option string) (payload : Payload) :
  addQuiz odm env user body db = (Respond status success message payload, db') →
  truthy (field body "title") = true
  ∧ truthy (field body "duration") = true
  ∧ ∃ entries,
      field body "questions" = VArr entries ∧ entries ≠ []
      ∧ ∀ entry, entry ∈ entries →
          ∃ props opts,
            entry = VObj props
            ∧ truthy (assoc "question" props) = true
            ∧ truthy (assoc "correctAnswer" props) = true
            ∧ assoc "options" props = VArr opts ∧ opts ≠ [].
Proof.
  intros Hadd.
  destruct (addQuiz_created _ _ _ _ _ _ _ _ _ _ Hadd) as (f & Hv & _).
  revert Hv. unfold validateQuiz.
  destruct (truthy (field body "title")); [|done].
  destruct (truthy (field body "questions")); [|done].
  destruct (truthy (field body "duration")); [|done]. cbn [negb orb].
  destruct (field body "questions") as [| | | | |entries|]; try done.
  cbn [isArray negb orb arrayLength elements].
  case_bool_decide as Hlen; [done|]. intros Hcheck.
  do 2 (split; [done|]). exists entries. split; [done|].
  split; [by intros ->|].
  apply checkQuestions_passes in Hcheck. rewrite Forall_forall in Hcheck.
  intros entry Hin. destruct (Hcheck entry Hin) as [Hnn Hnr].
  destruct entry as [| |b|n|s|elems|props];
    try (exfalso; apply Hnn; unfold nullish; by auto);
    try (exfalso; apply Hnr; right; split; [done | by intros ?]).
  exists props.
  destruct (truthy (assoc "question" props)) eqn:Ht;
    [|exfalso; apply Hnr; left; exists props; auto].
  destruct (truthy (assoc "correctAnswer" props)) eqn:Hc;
    [|exfalso; apply Hnr; left; exists props; auto 6].
  destruct (assoc "options" props) as [| | | | |opts|] eqn:Ho;
    try (exfalso; apply Hnr; left; exists props; rewrite Ho; by auto 7).
  exists opts. do 4 (split; [done|]).
  intros ->. apply Hnr. left. exists props. rewrite Ho. auto 8.
Qed.

Lemma addQuiz_accepts_well_formed_only_witness :
  ∃ out db',
    addQuiz Sample.odm (Sample.envAt 7 "n") Sample.root Scenario.newQuizBody
      Sample.db0 = (out, db')
    ∧ isSuccess out = true
    ∧ ∃ entries, field Scenario.newQuizBody "questions" = VArr entries
                 ∧ entries ≠ [].
Proof.
  destruct (addQuiz Sample.odm (Sample.envAt 7 "n") Sample.root
              Scenario.newQuizBody Sample.db0) as [out db'] eqn:Hadd.
  assert (∃ p, out = Respond 201 true (Some "Quiz added successfully!") p)
    as [p ->].
  { vm_compute in Hadd. injection Hadd as <- _. by eexists. }
  exists (Respond 201 true (Some "Quiz added successfully!") p), db'.
  split; [reflexivity|]. split; [reflexivity|].
  destruct (addQuiz_accepts_well_formed_only _ _ _ _ _ _ _ _ _ _ Hadd)
    as (_ & _ & entries & He & Hne & _).
  exists entries. by split.
Defined.

(** ** The router *)

Lemma dispatch_Some routes method path r params :
  dispatch routes method path = Some (r, params) →
  r ∈ routes ∧ r_method r = method
  ∧ matchPath (r_path r) path = Some params.
Proof.
  induction routes as [|x routes IH]; [done|]. cbn [dispatch].
  destruct (decide (r_method x = method)) as [Hm|Hm].
  - destruct (matchPath (r_path x) path) as [ps|] eqn:Hp.
    + intros [= <- <-]. split; [left | done].
    + intros H. destruct (IH H) as (? & ? & ?). split; [by right | done].
  - intros H. destruct (IH H) as (? & ? & ?). split; [by right | done].
Qed.

Lemma matchPath_params pattern :
  ∀ path params,
    matchPath pattern path = Some params →
    map fst params = paramNames pattern
    ∧ Forall (λ p, snd p ≠ "") params
    ∧ length path = length pattern.
Proof.
  induction pattern as [|seg pattern IH]; intros [|s path] params;
    cbn [matchPath]; try done.
  - by intros [= <-].
  - by destruct seg.
  - destruct seg as [lit|name].
    + destruct (decide _); [|done]. intros H.
      destruct (IH _ _ H) as (? & ? & ?). cbn. auto.
    + destruct (decide (s = "")); [done|].
      destruct (matchPath pattern path) as [ps|] eqn:Hp; [|done].
      intros [= <-]. destruct (IH _ _ Hp) as (Hn & Hf & Hl).
      cbn. rewrite Hn, Hl. split; [done|]. split; [|done].
      by constructor.
Qed.


(** X23.  Whatever request the router dispatches, the handler it reaches
    reads [req.user] only behind [isAuthenticated]; the routes without
    authentication are exactly those of [getLatestQuiz], [getSingleQuiz],
    [saveCompletedQuiz] and [getCompletedQuizzes], so [saveCompletedQuiz]
    is the one writing handler that can be reached without it. *)
Theorem dispatch_authentication (method : Method) (path : list string)
    (r : Route) (params : list (string * string)) :
  dispatch quizRoutes method path = Some (r, params) →
  (readsUser (r_handler r) = true → r_isAuthenticated r = true)
  ∧ (r_isAuthenticated r = false ↔
     r_handler r ∈ [H_getLatestQuiz; H_getSingleQuiz; H_saveCompletedQuiz;
                    H_getCompletedQuizzes])
  ∧ (writes (r_handler r) = true ∧ r_isAuthenticated r = false ↔
     r_handler r = H_saveCompletedQuiz).
Proof.
  intros Hd. destruct (dispatch_Some _ _ _ _ _ Hd) as (Hin & _ & _).
  assert (Hall : Forall (λ r,
            (readsUser (r_handler r) = true → r_isAuthenticated r = true)
            ∧ (r_isAuthenticated r = false ↔
               r_handler r ∈ [H_getLatestQuiz; H_getSingleQuiz;
                              H_saveCompletedQuiz; H_getCompletedQuizzes])
            ∧ (writes (r_handler r) = true ∧ r_isAuthenticated r = false ↔
               r_handler r = H_saveCompletedQuiz)) quizRoutes).
  { apply (bool_decide_unpack _). vm_compute. exact I. }
  rewrite Forall_forall in Hall. by apply Hall.
Qed.

Lemma dispatch_authentication_witness :
  dispatch quizRoutes POST ["completed-quizzes"] =
    Some (mkRoute POST [Lit "completed-quizzes"] false H_saveCompletedQuiz, [])
  ∧ writes H_saveCompletedQuiz = true
  ∧ (writes H_saveCompletedQuiz = true ∧ false = false ↔
     H_saveCompletedQuiz = H_saveCompletedQuiz).
Proof.
  assert (Hd : dispatch quizRoutes POST ["completed-quizzes"] =
               Some (mkRoute POST [Lit "completed-quizzes"] false
                       H_saveCompletedQuiz, [])) by reflexivity.
  split; [exact Hd|]. split; [reflexivity|].
  destruct (dispatch_authentication POST ["completed-quizzes"] _ _ Hd)
    as (_ & _ & Hw).
  exact Hw.
Defined.

(** X24.  A dispatched request binds exactly the parameters its handler
    reads from [req.params], each to a non-empty segment.  So behind the
    router [getQuizLeaderboard] always has a quiz identifier: its answer is
    the 200 with a leaderboard, and its "Quiz ID is required" 400 is never
    sent. *)
Theorem dispatch_binds_handler_params (method : Method) (path : list string)
    (r : Route) (params : list (string * string)) :
  dispatch quizRoutes method path = Some (r, params) →
  map fst params = paramsOf (r_handler r)
  ∧ Forall (λ p, snd p ≠ "") params
  ∧ (r_handler r = H_getQuizLeaderboard →
     ∃ quizId,
       params = [("quizId", quizId)]
       ∧ ∀ db, ∃ leaderboard,
           getQuizLeaderboard quizId db =
             (Respond 200 true None (P_leaderboard leaderboard), db)).
Proof.
  intros Hd. destruct (dispatch_Some _ _ _ _ _ Hd) as (Hin & _ & Hm).
  destruct (matchPath_params _ _ _ Hm) as (Hnames & Hne & _).
  assert (Hall : Forall (λ r, paramNames (r_path r) = paramsOf (r_handler r))
                   quizRoutes).
  { apply (bool_decide_unpack _). vm_compute. exact I. }
  rewrite Forall_forall in Hall. rewrite (Hall r Hin) in Hnames.
  split; [done|]. split; [done|].
  intros Hh. rewrite Hh in Hnames. cbn [paramsOf] in Hnames.
  destruct params as [|[name quizId] [|? ?]]; try done.
  injection Hnames as ->. exists quizId. split; [done|].
  apply Forall_cons in Hne as [Hq _]. cbn [snd] in Hq.
  intros db. eexists. by apply getQuizLeaderboard_run.
Qed.

Lemma dispatch_binds_handler_params_witness :
  dispatch quizRoutes GET ["leaderboard"; "quiz1"] =
    Some (mkRoute GET [Lit "leaderboard"; Param "quizId"] true
            H_getQuizLeaderboard, [("quizId", "quiz1")])
  ∧ ∃ leaderboard,
      getQuizLeaderboard "quiz1" Sample.dbBoard =
        (Respond 200 true None (P_leaderboard leaderboard), Sample.dbBoard).
Proof.
  assert (Hd : dispatch quizRoutes GET ["leaderboard"; "quiz1"] =
               Some (mkRoute GET [Lit "leaderboard"; Param "quizId"] true
                       H_getQuizLeaderboard, [("quizId", "quiz1")]))
    by reflexivity.
  split; [exact Hd|].
  destruct (dispatch_binds_handler_params GET ["leaderboard"; "quiz1"] _ _ Hd)
    as (_ & _ & Hlb).
  destruct (Hlb eq_refl) as (quizId & [= <-] & Hrun).
  exact (Hrun Sample.dbBoard).
Defined.
